(** * Verification model of the configuration bootstrap of the
      exposure-notifications verification server

    The development embeds two Go packages:

    - package [config]: [New]/[NewWith] (the bootstrap orchestrator),
      the [Config] and [FirebaseConfig] structures with their [env] tags,
      [Config.CSRFKey], [checkPositiveDuration] and [Config.Validate];
    - package [controller]: [GetUser].

    Go values are modelled as follows.  A [time.Duration] is an [int64] count
    of nanoseconds and is a [Z]; the functions below only compare durations,
    so no wrap-around arithmetic occurs.  Go strings are byte sequences and
    are [string]s; a [[]byte] is a [list byte].  A Go result pair
    (pointer, error) is a pair of [option]s, [None] standing for [nil], so
    that "a non-nil value exactly when the error is nil" is a statement to
    prove and not a property of the type.  The [context.Context] argument is
    only passed along by the code and is left out.

    The packages that the code imports and whose source is not at hand
    ([envconfig], [secrets], [base64util], [database], [flash], gorilla's
    [context]) enter as parameters.  Two claims are about what the struct
    decoder [envconfig.ProcessWith] does; for them the decoder is modelled
    from the spec, and every definition of that model says so. *)

From Stdlib Require Import ZArith NArith Lia Ascii Sorted.
From Stdlib.Strings Require Byte.
From stdpp Require Import base strings list gmap.

Set Warnings "-register-all".

Local Open Scope Z_scope.

(* ================================================================== *)
(** * Part I: definitions *)
(* ================================================================== *)

(** ** Durations *)

Definition Duration : Type := Z.

Definition Nanosecond : Duration := 1.
Definition Microsecond : Duration := 1000 * Nanosecond.
Definition Millisecond : Duration := 1000 * Microsecond.
Definition Second : Duration := 1000 * Millisecond.
Definition Minute : Duration := 60 * Second.
Definition Hour : Duration := 60 * Minute.

(** The values an [int64] can take. *)
Definition int64_range (d : Z) : Prop := - 2 ^ 63 <= d < 2 ^ 63.

(** ** Errors *)

(** Modelled from the spec: the semantic types a configuration field can
    have (section 3); in the source they are the Go types of the fields. *)
Inductive SemType : Type :=
| TString
| TInt
| TUint
| TBool
| TDuration.

(** An operand of a [fmt.Errorf] call. *)
Inductive fmt_arg (E : Type) : Type :=
| ArgString (s : string)
| ArgInt (n : Z)
| ArgDuration (d : Duration)
| ArgError (e : E).

Arguments ArgString {E} s.
Arguments ArgInt {E} n.
Arguments ArgDuration {E} d.
Arguments ArgError {E} e.

(** Go [error] values.  [Errorf] is [fmt.Errorf] applied to a format and its
    operands (the message is not rendered: a theorem about which name an
    error carries reads it off the operands).  [Opaque] is an error value
    made by an external package.  Modelled from the spec: the errors of the
    struct decoder, whose source is not at hand, are [MissingRequiredField],
    [TypeConversionError] and [FieldError] (a mutator's error annotated with
    the field name), after the taxonomy of sections 4.1 and 7. *)
Inductive error : Type :=
| Errorf (format : string) (args : list (fmt_arg error))
| MissingRequiredField (key : string)
| TypeConversionError (key : string) (ty : SemType) (raw : string)
| FieldError (field : string) (cause : error)
| Opaque (msg : string).

(** The operands of an error built by [fmt.Errorf]. *)
Definition error_args (e : error) : list (fmt_arg error) :=
  match e with
  | Errorf _ args => args
  | _ => []
  end.

(** An error made by [fmt.Errorf] names [name] when [name] is the string
    substituted for the first verb of its format. *)
Definition error_name (e : error) : option string :=
  match error_args e with
  | ArgString name :: _ => Some name
  | _ => None
  end.

(** ** The configuration structures *)

(** [FirebaseConfig]: configuration specific to firebase auth. *)
Record FirebaseConfig : Type := {
  APIKey : string;
  AuthDomain : string;
  DatabaseURL : string;
  ProjectID : string;
  StorageBucket : string;
  MessageSenderID : string;
  AppID : string;
  MeasurementID : string;
}.

(** [Config]: the environment based config for the server.  The type of the
    [Database] field, [database.Config], is declared in a package whose
    source is not part of the model; it is a parameter. *)
Record Config (database_Config : Type) : Type := {
  Firebase : FirebaseConfig;
  Database : database_Config;
  Port : Z;
  SessionCookieDuration : Duration;
  RevokeCheckPeriod : Duration;
  CSRFAuthKey : string;
  ServerName : string;
  CodeDuration : Duration;
  CodeDigits : N;
  CollisionRetryCount : N;
  AllowedTestAge : Duration;
  APIKeyCacheDuration : Duration;
  RateLimit : N;
  VerificationTokenDuration : Duration;
  TokenSigningKey : string;
  TokenSigningKeyID : string;
  TokenIssuer : string;
  PublicKeyCacheDuration : Duration;
  CertificateSigningKey : string;
  CertificateSigningKeyID : string;
  CertificateIssuer : string;
  CertificateAudience : string;
  CertificateDuration : Duration;
  CleanupPeriod : Duration;
  DisabledUserMaxAge : Duration;
  VerificationCodeMaxAge : Duration;
  VerificationTokenMaxAge : Duration;
  AssetsPath : string;
  DevMode : bool;
}.

Arguments Build_Config {database_Config}.
Arguments Firebase {database_Config} c.
Arguments Database {database_Config} c.
Arguments Port {database_Config} c.
Arguments SessionCookieDuration {database_Config} c.
Arguments RevokeCheckPeriod {database_Config} c.
Arguments CSRFAuthKey {database_Config} c.
Arguments ServerName {database_Config} c.
Arguments CodeDuration {database_Config} c.
Arguments CodeDigits {database_Config} c.
Arguments CollisionRetryCount {database_Config} c.
Arguments AllowedTestAge {database_Config} c.
Arguments APIKeyCacheDuration {database_Config} c.
Arguments RateLimit {database_Config} c.
Arguments VerificationTokenDuration {database_Config} c.
Arguments TokenSigningKey {database_Config} c.
Arguments TokenSigningKeyID {database_Config} c.
Arguments TokenIssuer {database_Config} c.
Arguments PublicKeyCacheDuration {database_Config} c.
Arguments CertificateSigningKey {database_Config} c.
Arguments CertificateSigningKeyID {database_Config} c.
Arguments CertificateIssuer {database_Config} c.
Arguments CertificateAudience {database_Config} c.
Arguments CertificateDuration {database_Config} c.
Arguments CleanupPeriod {database_Config} c.
Arguments DisabledUserMaxAge {database_Config} c.
Arguments VerificationCodeMaxAge {database_Config} c.
Arguments VerificationTokenMaxAge {database_Config} c.
Arguments AssetsPath {database_Config} c.
Arguments DevMode {database_Config} c.

(** ** Assignments to single fields

    Go assigns to one field of a structure and leaves the others as they
    are; each [set_F v c] below is the structure [c] after [c.F = v]. *)

Definition set_APIKey (v : string) (c : FirebaseConfig) : FirebaseConfig :=
  let '(Build_FirebaseConfig _ f1 f2 f3 f4 f5 f6 f7) := c in
  Build_FirebaseConfig v f1 f2 f3 f4 f5 f6 f7.

Definition set_AuthDomain (v : string) (c : FirebaseConfig) : FirebaseConfig :=
  let '(Build_FirebaseConfig f0 _ f2 f3 f4 f5 f6 f7) := c in
  Build_FirebaseConfig f0 v f2 f3 f4 f5 f6 f7.

Definition set_DatabaseURL (v : string) (c : FirebaseConfig) : FirebaseConfig :=
  let '(Build_FirebaseConfig f0 f1 _ f3 f4 f5 f6 f7) := c in
  Build_FirebaseConfig f0 f1 v f3 f4 f5 f6 f7.

Definition set_ProjectID (v : string) (c : FirebaseConfig) : FirebaseConfig :=
  let '(Build_FirebaseConfig f0 f1 f2 _ f4 f5 f6 f7) := c in
  Build_FirebaseConfig f0 f1 f2 v f4 f5 f6 f7.

Definition set_StorageBucket (v : string) (c : FirebaseConfig) : FirebaseConfig :=
  let '(Build_FirebaseConfig f0 f1 f2 f3 _ f5 f6 f7) := c in
  Build_FirebaseConfig f0 f1 f2 f3 v f5 f6 f7.

Definition set_MessageSenderID (v : string) (c : FirebaseConfig) : FirebaseConfig :=
  let '(Build_FirebaseConfig f0 f1 f2 f3 f4 _ f6 f7) := c in
  Build_FirebaseConfig f0 f1 f2 f3 f4 v f6 f7.

Definition set_AppID (v : string) (c : FirebaseConfig) : FirebaseConfig :=
  let '(Build_FirebaseConfig f0 f1 f2 f3 f4 f5 _ f7) := c in
  Build_FirebaseConfig f0 f1 f2 f3 f4 f5 v f7.

Definition set_MeasurementID (v : string) (c : FirebaseConfig) : FirebaseConfig :=
  let '(Build_FirebaseConfig f0 f1 f2 f3 f4 f5 f6 _) := c in
  Build_FirebaseConfig f0 f1 f2 f3 f4 f5 f6 v.

Definition set_Firebase {D : Type} (v : FirebaseConfig) (c : Config D) : Config D :=
  let '(Build_Config
    _ f1 f2 f3 f4 f5 f6 f7 f8 f9 f10 f11 f12 f13 f14
    f15 f16 f17 f18 f19 f20 f21 f22 f23 f24 f25 f26 f27 f28) := c in
  Build_Config
    v f1 f2 f3 f4 f5 f6 f7 f8 f9 f10 f11 f12 f13 f14
    f15 f16 f17 f18 f19 f20 f21 f22 f23 f24 f25 f26 f27 f28.

Definition set_Database {D : Type} (v : D) (c : Config D) : Config D :=
  let '(Build_Config
    f0 _ f2 f3 f4 f5 f6 f7 f8 f9 f10 f11 f12 f13 f14
    f15 f16 f17 f18 f19 f20 f21 f22 f23 f24 f25 f26 f27 f28) := c in
  Build_Config
    f0 v f2 f3 f4 f5 f6 f7 f8 f9 f10 f11 f12 f13 f14
    f15 f16 f17 f18 f19 f20 f21 f22 f23 f24 f25 f26 f27 f28.

Definition set_Port {D : Type} (v : Z) (c : Config D) : Config D :=
  let '(Build_Config
    f0 f1 _ f3 f4 f5 f6 f7 f8 f9 f10 f11 f12 f13 f14
    f15 f16 f17 f18 f19 f20 f21 f22 f23 f24 f25 f26 f27 f28) := c in
  Build_Config
    f0 f1 v f3 f4 f5 f6 f7 f8 f9 f10 f11 f12 f13 f14
    f15 f16 f17 f18 f19 f20 f21 f22 f23 f24 f25 f26 f27 f28.

Definition set_SessionCookieDuration {D : Type} (v : Duration) (c : Config D) : Config D :=
  let '(Build_Config
    f0 f1 f2 _ f4 f5 f6 f7 f8 f9 f10 f11 f12 f13 f14
    f15 f16 f17 f18 f19 f20 f21 f22 f23 f24 f25 f26 f27 f28) := c in
  Build_Config
    f0 f1 f2 v f4 f5 f6 f7 f8 f9 f10 f11 f12 f13 f14
    f15 f16 f17 f18 f19 f20 f21 f22 f23 f24 f25 f26 f27 f28.

Definition set_RevokeCheckPeriod {D : Type} (v : Duration) (c : Config D) : Config D :=
  let '(Build_Config
    f0 f1 f2 f3 _ f5 f6 f7 f8 f9 f10 f11 f12 f13 f14
    f15 f16 f17 f18 f19 f20 f21 f22 f23 f24 f25 f26 f27 f28) := c in
  Build_Config
    f0 f1 f2 f3 v f5 f6 f7 f8 f9 f10 f11 f12 f13 f14
    f15 f16 f17 f18 f19 f20 f21 f22 f23 f24 f25 f26 f27 f28.

Definition set_CSRFAuthKey {D : Type} (v : string) (c : Config D) : Config D :=
  let '(Build_Config
    f0 f1 f2 f3 f4 _ f6 f7 f8 f9 f10 f11 f12 f13 f14
    f15 f16 f17 f18 f19 f20 f21 f22 f23 f24 f25 f26 f27 f28) := c in
  Build_Config
    f0 f1 f2 f3 f4 v f6 f7 f8 f9 f10 f11 f12 f13 f14
    f15 f16 f17 f18 f19 f20 f21 f22 f23 f24 f25 f26 f27 f28.

Definition set_ServerName {D : Type} (v : string) (c : Config D) : Config D :=
  let '(Build_Config
    f0 f1 f2 f3 f4 f5 _ f7 f8 f9 f10 f11 f12 f13 f14
    f15 f16 f17 f18 f19 f20 f21 f22 f23 f24 f25 f26 f27 f28) := c in
  Build_Config
    f0 f1 f2 f3 f4 f5 v f7 f8 f9 f10 f11 f12 f13 f14
    f15 f16 f17 f18 f19 f20 f21 f22 f23 f24 f25 f26 f27 f28.

Definition set_CodeDuration {D : Type} (v : Duration) (c : Config D) : Config D :=
  let '(Build_Config
    f0 f1 f2 f3 f4 f5 f6 _ f8 f9 f10 f11 f12 f13 f14
    f15 f16 f17 f18 f19 f20 f21 f22 f23 f24 f25 f26 f27 f28) := c in
  Build_Config
    f0 f1 f2 f3 f4 f5 f6 v f8 f9 f10 f11 f12 f13 f14
    f15 f16 f17 f18 f19 f20 f21 f22 f23 f24 f25 f26 f27 f28.

Definition set_CodeDigits {D : Type} (v : N) (c : Config D) : Config D :=
  let '(Build_Config
    f0 f1 f2 f3 f4 f5 f6 f7 _ f9 f10 f11 f12 f13 f14
    f15 f16 f17 f18 f19 f20 f21 f22 f23 f24 f25 f26 f27 f28) := c in
  Build_Config
    f0 f1 f2 f3 f4 f5 f6 f7 v f9 f10 f11 f12 f13 f14
    f15 f16 f17 f18 f19 f20 f21 f22 f23 f24 f25 f26 f27 f28.

Definition set_CollisionRetryCount {D : Type} (v : N) (c : Config D) : Config D :=
  let '(Build_Config
    f0 f1 f2 f3 f4 f5 f6 f7 f8 _ f10 f11 f12 f13 f14
    f15 f16 f17 f18 f19 f20 f21 f22 f23 f24 f25 f26 f27 f28) := c in
  Build_Config
    f0 f1 f2 f3 f4 f5 f6 f7 f8 v f10 f11 f12 f13 f14
    f15 f16 f17 f18 f19 f20 f21 f22 f23 f24 f25 f26 f27 f28.

Definition set_AllowedTestAge {D : Type} (v : Duration) (c : Config D) : Config D :=
  let '(Build_Config
    f0 f1 f2 f3 f4 f5 f6 f7 f8 f9 _ f11 f12 f13 f14
    f15 f16 f17 f18 f19 f20 f21 f22 f23 f24 f25 f26 f27 f28) := c in
  Build_Config
    f0 f1 f2 f3 f4 f5 f6 f7 f8 f9 v f11 f12 f13 f14
    f15 f16 f17 f18 f19 f20 f21 f22 f23 f24 f25 f26 f27 f28.

Definition set_APIKeyCacheDuration {D : Type} (v : Duration) (c : Config D) : Config D :=
  let '(Build_Config
    f0 f1 f2 f3 f4 f5 f6 f7 f8 f9 f10 _ f12 f13 f14
    f15 f16 f17 f18 f19 f20 f21 f22 f23 f24 f25 f26 f27 f28) := c in
  Build_Config
    f0 f1 f2 f3 f4 f5 f6 f7 f8 f9 f10 v f12 f13 f14
    f15 f16 f17 f18 f19 f20 f21 f22 f23 f24 f25 f26 f27 f28.

Definition set_RateLimit {D : Type} (v : N) (c : Config D) : Config D :=
  let '(Build_Config
    f0 f1 f2 f3 f4 f5 f6 f7 f8 f9 f10 f11 _ f13 f14
    f15 f16 f17 f18 f19 f20 f21 f22 f23 f24 f25 f26 f27 f28) := c in
  Build_Config
    f0 f1 f2 f3 f4 f5 f6 f7 f8 f9 f10 f11 v f13 f14
    f15 f16 f17 f18 f19 f20 f21 f22 f23 f24 f25 f26 f27 f28.

Definition set_VerificationTokenDuration {D : Type} (v : Duration) (c : Config D) : Config D :=
  let '(Build_Config
    f0 f1 f2 f3 f4 f5 f6 f7 f8 f9 f10 f11 f12 _ f14
    f15 f16 f17 f18 f19 f20 f21 f22 f23 f24 f25 f26 f27 f28) := c in
  Build_Config
    f0 f1 f2 f3 f4 f5 f6 f7 f8 f9 f10 f11 f12 v f14
    f15 f16 f17 f18 f19 f20 f21 f22 f23 f24 f25 f26 f27 f28.

Definition set_TokenSigningKey {D : Type} (v : string) (c : Config D) : Config D :=
  let '(Build_Config
    f0 f1 f2 f3 f4 f5 f6 f7 f8 f9 f10 f11 f12 f13 _
    f15 f16 f17 f18 f19 f20 f21 f22 f23 f24 f25 f26 f27 f28) := c in
  Build_Config
    f0 f1 f2 f3 f4 f5 f6 f7 f8 f9 f10 f11 f12 f13 v
    f15 f16 f17 f18 f19 f20 f21 f22 f23 f24 f25 f26 f27 f28.

Definition set_TokenSigningKeyID {D : Type} (v : string) (c : Config D) : Config D :=
  let '(Build_Config
    f0 f1 f2 f3 f4 f5 f6 f7 f8 f9 f10 f11 f12 f13 f14
    _ f16 f17 f18 f19 f20 f21 f22 f23 f24 f25 f26 f27 f28) := c in
  Build_Config
    f0 f1 f2 f3 f4 f5 f6 f7 f8 f9 f10 f11 f12 f13 f14
    v f16 f17 f18 f19 f20 f21 f22 f23 f24 f25 f26 f27 f28.

Definition set_TokenIssuer {D : Type} (v : string) (c : Config D) : Config D :=
  let '(Build_Config
    f0 f1 f2 f3 f4 f5 f6 f7 f8 f9 f10 f11 f12 f13 f14
    f15 _ f17 f18 f19 f20 f21 f22 f23 f24 f25 f26 f27 f28) := c in
  Build_Config
    f0 f1 f2 f3 f4 f5 f6 f7 f8 f9 f10 f11 f12 f13 f14
    f15 v f17 f18 f19 f20 f21 f22 f23 f24 f25 f26 f27 f28.

Definition set_PublicKeyCacheDuration {D : Type} (v : Duration) (c : Config D) : Config D :=
  let '(Build_Config
    f0 f1 f2 f3 f4 f5 f6 f7 f8 f9 f10 f11 f12 f13 f14
    f15 f16 _ f18 f19 f20 f21 f22 f23 f24 f25 f26 f27 f28) := c in
  Build_Config
    f0 f1 f2 f3 f4 f5 f6 f7 f8 f9 f10 f11 f12 f13 f14
    f15 f16 v f18 f19 f20 f21 f22 f23 f24 f25 f26 f27 f28.

Definition set_CertificateSigningKey {D : Type} (v : string) (c : Config D) : Config D :=
  let '(Build_Config
    f0 f1 f2 f3 f4 f5 f6 f7 f8 f9 f10 f11 f12 f13 f14
    f15 f16 f17 _ f19 f20 f21 f22 f23 f24 f25 f26 f27 f28) := c in
  Build_Config
    f0 f1 f2 f3 f4 f5 f6 f7 f8 f9 f10 f11 f12 f13 f14
    f15 f16 f17 v f19 f20 f21 f22 f23 f24 f25 f26 f27 f28.

Definition set_CertificateSigningKeyID {D : Type} (v : string) (c : Config D) : Config D :=
  let '(Build_Config
    f0 f1 f2 f3 f4 f5 f6 f7 f8 f9 f10 f11 f12 f13 f14
    f15 f16 f17 f18 _ f20 f21 f22 f23 f24 f25 f26 f27 f28) := c in
  Build_Config
    f0 f1 f2 f3 f4 f5 f6 f7 f8 f9 f10 f11 f12 f13 f14
    f15 f16 f17 f18 v f20 f21 f22 f23 f24 f25 f26 f27 f28.

Definition set_CertificateIssuer {D : Type} (v : string) (c : Config D) : Config D :=
  let '(Build_Config
    f0 f1 f2 f3 f4 f5 f6 f7 f8 f9 f10 f11 f12 f13 f14
    f15 f16 f17 f18 f19 _ f21 f22 f23 f24 f25 f26 f27 f28) := c in
  Build_Config
    f0 f1 f2 f3 f4 f5 f6 f7 f8 f9 f10 f11 f12 f13 f14
    f15 f16 f17 f18 f19 v f21 f22 f23 f24 f25 f26 f27 f28.

Definition set_CertificateAudience {D : Type} (v : string) (c : Config D) : Config D :=
  let '(Build_Config
    f0 f1 f2 f3 f4 f5 f6 f7 f8 f9 f10 f11 f12 f13 f14
    f15 f16 f17 f18 f19 f20 _ f22 f23 f24 f25 f26 f27 f28) := c in
  Build_Config
    f0 f1 f2 f3 f4 f5 f6 f7 f8 f9 f10 f11 f12 f13 f14
    f15 f16 f17 f18 f19 f20 v f22 f23 f24 f25 f26 f27 f28.

Definition set_CertificateDuration {D : Type} (v : Duration) (c : Config D) : Config D :=
  let '(Build_Config
    f0 f1 f2 f3 f4 f5 f6 f7 f8 f9 f10 f11 f12 f13 f14
    f15 f16 f17 f18 f19 f20 f21 _ f23 f24 f25 f26 f27 f28) := c in
  Build_Config
    f0 f1 f2 f3 f4 f5 f6 f7 f8 f9 f10 f11 f12 f13 f14
    f15 f16 f17 f18 f19 f20 f21 v f23 f24 f25 f26 f27 f28.

Definition set_CleanupPeriod {D : Type} (v : Duration) (c : Config D) : Config D :=
  let '(Build_Config
    f0 f1 f2 f3 f4 f5 f6 f7 f8 f9 f10 f11 f12 f13 f14
    f15 f16 f17 f18 f19 f20 f21 f22 _ f24 f25 f26 f27 f28) := c in
  Build_Config
    f0 f1 f2 f3 f4 f5 f6 f7 f8 f9 f10 f11 f12 f13 f14
    f15 f16 f17 f18 f19 f20 f21 f22 v f24 f25 f26 f27 f28.

Definition set_DisabledUserMaxAge {D : Type} (v : Duration) (c : Config D) : Config D :=
  let '(Build_Config
    f0 f1 f2 f3 f4 f5 f6 f7 f8 f9 f10 f11 f12 f13 f14
    f15 f16 f17 f18 f19 f20 f21 f22 f23 _ f25 f26 f27 f28) := c in
  Build_Config
    f0 f1 f2 f3 f4 f5 f6 f7 f8 f9 f10 f11 f12 f13 f14
    f15 f16 f17 f18 f19 f20 f21 f22 f23 v f25 f26 f27 f28.

Definition set_VerificationCodeMaxAge {D : Type} (v : Duration) (c : Config D) : Config D :=
  let '(Build_Config
    f0 f1 f2 f3 f4 f5 f6 f7 f8 f9 f10 f11 f12 f13 f14
    f15 f16 f17 f18 f19 f20 f21 f22 f23 f24 _ f26 f27 f28) := c in
  Build_Config
    f0 f1 f2 f3 f4 f5 f6 f7 f8 f9 f10 f11 f12 f13 f14
    f15 f16 f17 f18 f19 f20 f21 f22 f23 f24 v f26 f27 f28.

Definition set_VerificationTokenMaxAge {D : Type} (v : Duration) (c : Config D) : Config D :=
  let '(Build_Config
    f0 f1 f2 f3 f4 f5 f6 f7 f8 f9 f10 f11 f12 f13 f14
    f15 f16 f17 f18 f19 f20 f21 f22 f23 f24 f25 _ f27 f28) := c in
  Build_Config
    f0 f1 f2 f3 f4 f5 f6 f7 f8 f9 f10 f11 f12 f13 f14
    f15 f16 f17 f18 f19 f20 f21 f22 f23 f24 f25 v f27 f28.

Definition set_AssetsPath {D : Type} (v : string) (c : Config D) : Config D :=
  let '(Build_Config
    f0 f1 f2 f3 f4 f5 f6 f7 f8 f9 f10 f11 f12 f13 f14
    f15 f16 f17 f18 f19 f20 f21 f22 f23 f24 f25 f26 _ f28) := c in
  Build_Config
    f0 f1 f2 f3 f4 f5 f6 f7 f8 f9 f10 f11 f12 f13 f14
    f15 f16 f17 f18 f19 f20 f21 f22 f23 f24 f25 f26 v f28.

Definition set_DevMode {D : Type} (v : bool) (c : Config D) : Config D :=
  let '(Build_Config
    f0 f1 f2 f3 f4 f5 f6 f7 f8 f9 f10 f11 f12 f13 f14
    f15 f16 f17 f18 f19 f20 f21 f22 f23 f24 f25 f26 f27 _) := c in
  Build_Config
    f0 f1 f2 f3 f4 f5 f6 f7 f8 f9 f10 f11 f12 f13 f14
    f15 f16 f17 f18 f19 f20 f21 f22 f23 f24 f25 f26 f27 v.

(** ** [checkPositiveDuration] and [Config.Validate] *)

Definition checkPositiveDuration (d : Duration) (name : string) : option error :=
  if d <? 0
  then Some (Errorf "%v must be a positive duration, got: %v" [ArgString name; ArgDuration d])
  else None.

(** One entry of the table [fields] built by [Validate]. *)
Record check : Type := {
  Var : Duration;
  Name : string;
}.

Definition Validate_fields {D : Type} (c : Config D) : list check := [
  {| Var := SessionCookieDuration c; Name := "SESSION_DUATION" |};
  {| Var := RevokeCheckPeriod c; Name := "REVOKE_CHECK_DURATION" |};
  {| Var := CodeDuration c; Name := "CODE_DURATION" |};
  {| Var := AllowedTestAge c; Name := "ALLOWED_PAST_TEST_DAYS" |};
  {| Var := APIKeyCacheDuration c; Name := "API_KEY_CACHE_DURATION" |};
  {| Var := VerificationCodeMaxAge c; Name := "VERIFICATION_TOKEN_DURATION" |};
  {| Var := PublicKeyCacheDuration c; Name := "PUBLIC_KEY_CACHE_DURATION" |};
  {| Var := CleanupPeriod c; Name := "CLEANUP_PERIOD" |};
  {| Var := DisabledUserMaxAge c; Name := "DISABLED_USER_MAX_AGE" |};
  {| Var := VerificationCodeMaxAge c; Name := "VERIFICATION_CODE_MAX_AGE" |};
  {| Var := VerificationTokenMaxAge c; Name := "VERIFICATION_TOKEN_MAX_AGE" |}
].

(** The loop [for _, f := range fields]: the first error ends it. *)
Fixpoint Validate_loop (fields : list check) : option error :=
  match fields with
  | [] => None
  | f :: rest =>
      match checkPositiveDuration (Var f) (Name f) with
      | Some err => Some err
      | None => Validate_loop rest
      end
  end.

Definition Validate {D : Type} (c : Config D) : option error :=
  Validate_loop (Validate_fields c).

(** ** [Config.CSRFKey] *)

Section CSRFKey.

Context {D : Type}.

(** [base64util.DecodeString], of an external package: it returns the decoded
    bytes and an error. *)
Variable base64util_DecodeString : string -> list Byte.byte * option error.

Definition CSRFKey (c : Config D) : option (list Byte.byte) * option error :=
  let '(key, err) := base64util_DecodeString (CSRFAuthKey c) in
  match err with
  | Some e => (None, Some (Errorf "error decoding CSRF_AUTH_KEY: %v" [ArgError e]))
  | None =>
      let l := length key in
      if negb (l =? 32)%nat
      then (None, Some (Errorf "CSRF_AUTH_KEY is not 32 bytes, got: %v" [ArgInt (Z.of_nat l)]))
      else (Some key, None)
  end.

End CSRFKey.

(** ** Go's [strings] package: [ReplaceAll] and what it is made of *)

(** [strings.HasPrefix s prefix]. *)
Fixpoint HasPrefix (s prefix : string) : bool :=
  match prefix, s with
  | EmptyString, _ => true
  | String p prefix', String c s' => if Ascii.eqb p c then HasPrefix s' prefix' else false
  | String _ _, EmptyString => false
  end.

(** [s[n:]], for [n] at most [len(s)]. *)
Fixpoint string_drop (n : nat) (s : string) : string :=
  match n, s with
  | O, _ => s
  | S n', String _ s' => string_drop n' s'
  | S _, EmptyString => EmptyString
  end.

(** [s[:n]], for [n] at most [len(s)]. *)
Fixpoint string_take (n : nat) (s : string) : string :=
  match n, s with
  | O, _ => EmptyString
  | S n', String c s' => String c (string_take n' s')
  | S _, EmptyString => EmptyString
  end.

(** [strings.Index s substr]: the position of the first occurrence of
    [substr] in [s]; [None] is Go's [-1]. *)
Fixpoint Index (s substr : string) : option nat :=
  if HasPrefix s substr then Some O
  else match s with
       | EmptyString => None
       | String _ s' => option_map S (Index s' substr)
       end.

(** [strings.Contains s substr]. *)
Definition Contains (s substr : string) : bool :=
  match Index s substr with
  | Some _ => true
  | None => false
  end.

(** [strings.Count s substr] for a non-empty [substr]: the loop finds the
    next occurrence and continues after it.  Every round consumes at least
    one byte, so [fuel] need not exceed the length of [s]. *)
Fixpoint Count_loop (fuel : nat) (s substr : string) : nat :=
  match fuel with
  | O => O
  | S fuel' =>
      match Index s substr with
      | None => O
      | Some i => S (Count_loop fuel' (string_drop (i + String.length substr) s) substr)
      end
  end.

Definition Count (s substr : string) : nat :=
  Count_loop (String.length s) s substr.

(** The loop of [strings.Replace] that applies [n] replacements; [s] is the
    text from [start] on. *)
Fixpoint Replace_loop (n : nat) (s old new : string) : string :=
  match n with
  | O => s
  | S n' =>
      match Index s old with
      | None => s
      | Some j =>
          string_take j s +:+ new
            +:+ Replace_loop n' (string_drop (j + String.length old) s) old new
      end
  end.

(** [strings.ReplaceAll s old new], that is [strings.Replace s old new (-1)],
    for a non-empty [old]: nothing to do when [old = new] or when [old] does
    not occur, otherwise every non-overlapping occurrence found from left to
    right is replaced.  With an empty [old] Go inserts [new] around every
    rune; the program never does that and the model leaves [s] as it is. *)
Definition ReplaceAll (s old new : string) : string :=
  if decide (old = new) then s
  else match old with
       | EmptyString => s
       | String _ _ =>
           let m := Count s old in
           if (m =? 0)%nat then s else Replace_loop m s old new
       end.

(** ** Package [controller]: [GetUser] *)

Section Controller.

(** [database.User], declared in a package outside the model. *)
Variable User : Type.

(** What the handler can change besides its results: the response writer
    [w] and whatever the flash of the request is kept in. *)
Variable World : Type.

(** The dynamic values of an [interface{}] as [GetUser] can tell them
    apart: the nil interface, a pointer of type [*database.User] (which may
    be the nil pointer), or a value of another type (named by [type_name]). *)
Inductive value : Type :=
| NilInterface
| UserPtr (p : option User)
| OtherValue (type_name : string).

(** The request as [GetUser] reads it: the values that gorilla's [context]
    registry holds for it, if it holds any. *)
Record Request : Type := {
  context_data : option (gmap string value);
}.

(** [flash_Error r msg] is [flash.FromContext(w, r).Error(msg)], of a package
    outside the model: it receives the request and the message, and acts on
    what the handler can change. *)
Variable flash_Error : Request -> string -> World -> World.

(** [context.GetOk(r, key)]. *)
Definition context_GetOk (r : Request) (key : string) : value * bool :=
  match context_data r with
  | Some data =>
      match data !! key with
      | Some v => (v, true)
      | None => (NilInterface, false)
      end
  | None => (NilInterface, false)
  end.

(** The type assertion [rawUser.( *database.User)] in its two-result form. *)
Definition assert_UserPtr (v : value) : option User * bool :=
  match v with
  | UserPtr p => (p, true)
  | _ => (None, false)
  end.

Definition GetUser (w : World) (r : Request) : World * (option User * option error) :=
  let '(rawUser, ok) := context_GetOk r "user" in
  if negb ok
  then (flash_Error r "Unauthorized" w, (None, Some (Errorf "unauthorized" [])))
  else
    let '(user, ok) := assert_UserPtr rawUser in
    if negb ok
    then (flash_Error r "internal error - you have been logged out." w,
          (None, Some (Errorf "internal error" [])))
    else (w, (user, None)).

End Controller.

Arguments NilInterface {User}.
Arguments UserPtr {User} p.
Arguments OtherValue {User} type_name.
Arguments Build_Request {User} context_data.
Arguments context_data {User} r.
Arguments context_GetOk {User} r key.
Arguments assert_UserPtr {User} v.
Arguments GetUser {User World} flash_Error w r.

(** ** The struct decoder: [envconfig.ProcessWith] *)

(** Modelled from the spec: the Lookuper of section 3 ([envconfig.Lookuper],
    not in the sources), which resolves an environment key to its value if
    the key is present. *)
Definition Lookuper : Type := string -> option string.

(** Modelled from the spec: a Lookuper over a map, the injected lookuper of
    section 6 ([envconfig.MapLookuper], not in the sources). *)
Definition MapLookuper (m : gmap string string) : Lookuper := fun key => m !! key.

(** The Go type that a field of each semantic type has in the structures. *)
Definition denote (t : SemType) : Type :=
  match t with
  | TString => string
  | TInt => Z
  | TUint => N
  | TBool => bool
  | TDuration => Duration
  end.

(** Modelled from the spec: the FieldSpec of section 3, what the decoder
    derives from one field's [env] tag (the decoder's own source is not part
    of the model): the field's path in the structure, its environment key,
    the required flag, the default literal and the semantic type. *)
Record FieldSpec : Type := {
  fs_field : string;
  fs_key : string;
  fs_required : bool;
  fs_default : option string;
  fs_type : SemType;
}.

(** Modelled from the spec: a field as the decoder of section 4.1 sees it
    (the decoder, [envconfig.ProcessWith], is not in the sources, which hold
    only the [env] tags): the FieldSpec of a field of the structure [S], with
    the way to read the field and to assign to it. *)
Record Field (S : Type) : Type := {
  f_spec : FieldSpec;
  f_get : S -> denote (fs_type f_spec);
  f_set : denote (fs_type f_spec) -> S -> S;
}.

Arguments f_spec {S} f.
Arguments f_get {S} f s.
Arguments f_set {S} f v s.

(** Modelled from the spec: the reading of the tag [env:"KEY,required"] as a
    FieldSpec (section 3; the tag parser is part of [envconfig], not in the
    sources). *)
Definition env_required {S : Type} (field key : string) (t : SemType)
    (get : S -> denote t) (set : denote t -> S -> S) : Field S :=
  {| f_spec := {| fs_field := field; fs_key := key; fs_required := true;
                  fs_default := None; fs_type := t |};
     f_get := get; f_set := set |}.

(** Modelled from the spec: the reading of the tag [env:"KEY,default=LIT"]. *)
Definition env_default {S : Type} (field key default : string) (t : SemType)
    (get : S -> denote t) (set : denote t -> S -> S) : Field S :=
  {| f_spec := {| fs_field := field; fs_key := key; fs_required := false;
                  fs_default := Some default; fs_type := t |};
     f_get := get; f_set := set |}.

(** Modelled from the spec: the reading of the tag [env:"KEY"], neither
    required nor with a default. *)
Definition env_plain {S : Type} (field key : string) (t : SemType)
    (get : S -> denote t) (set : denote t -> S -> S) : Field S :=
  {| f_spec := {| fs_field := field; fs_key := key; fs_required := false;
                  fs_default := None; fs_type := t |};
     f_get := get; f_set := set |}.

(** Modelled from the spec: a field of a nested structure [T], seen as a
    field of the structure [S] that holds it.  The decoder of section 4.1
    (not in the sources) recurses into nested structures depth-first, which
    visits the fields in the order of the flattened table. *)
Definition nested {S T : Type} (name : string) (get : S -> T) (set : T -> S -> S)
    (f : Field T) : Field S :=
  {| f_spec := {| fs_field := name +:+ "." +:+ fs_field (f_spec f);
                  fs_key := fs_key (f_spec f);
                  fs_required := fs_required (f_spec f);
                  fs_default := fs_default (f_spec f);
                  fs_type := fs_type (f_spec f) |};
     f_get := fun s => f_get f (get s);
     f_set := fun v s => set (f_set f v (get s)) s |}.

(** The [env] tags of [FirebaseConfig], from the source. *)
Definition FirebaseConfig_fields : list (Field FirebaseConfig) := [
  env_required "APIKey" "FIREBASE_API_KEY" TString APIKey set_APIKey;
  env_required "AuthDomain" "FIREBASE_AUTH_DOMAIN" TString AuthDomain set_AuthDomain;
  env_required "DatabaseURL" "FIREBASE_DATABASE_URL" TString DatabaseURL set_DatabaseURL;
  env_required "ProjectID" "FIREBASE_PROJECT_ID" TString ProjectID set_ProjectID;
  env_required "StorageBucket" "FIREBASE_STORAGE_BUCKET" TString StorageBucket set_StorageBucket;
  env_required "MessageSenderID" "FIREBASE_MESSAGE_SENDER_ID" TString MessageSenderID
    set_MessageSenderID;
  env_required "AppID" "FIREBASE_APP_ID" TString AppID set_AppID;
  env_required "MeasurementID" "FIREBASE_MEASUREMENT_ID" TString MeasurementID set_MeasurementID
].

(** The [env] tags of the fields that [Config] declares itself, from [Port]
    to [DevMode], in declaration order, from the source. *)
Definition Config_own_fields {D : Type} : list (Field (Config D)) := [
  env_default "Port" "PORT" "8080" TInt Port set_Port;
  env_default "SessionCookieDuration" "SESSION_DURATION" "24h" TDuration
    SessionCookieDuration set_SessionCookieDuration;
  env_default "RevokeCheckPeriod" "REVOKE_CHECK_DURATION" "5m" TDuration
    RevokeCheckPeriod set_RevokeCheckPeriod;
  env_required "CSRFAuthKey" "CSRF_AUTH_KEY" TString CSRFAuthKey set_CSRFAuthKey;
  env_default "ServerName" "SERVER_NAME" "Diagnosis Verification Server" TString
    ServerName set_ServerName;
  env_default "CodeDuration" "CODE_DURATION" "1h" TDuration CodeDuration set_CodeDuration;
  env_default "CodeDigits" "CODE_DIGITS" "8" TUint CodeDigits set_CodeDigits;
  env_default "CollisionRetryCount" "COLISSION_RETRY_COUNT" "6" TUint
    CollisionRetryCount set_CollisionRetryCount;
  env_default "AllowedTestAge" "ALLOWRD_PAST_TEST_DAYS" "336h" TDuration
    AllowedTestAge set_AllowedTestAge;
  env_default "APIKeyCacheDuration" "API_KEY_CACHE_DURATION" "5m" TDuration
    APIKeyCacheDuration set_APIKeyCacheDuration;
  env_default "RateLimit" "RATE_LIMIT" "60" TUint RateLimit set_RateLimit;
  env_default "VerificationTokenDuration" "VERIFICATION_TOKEN_DURATION" "24h" TDuration
    VerificationTokenDuration set_VerificationTokenDuration;
  env_required "TokenSigningKey" "TOKEN_SIGNING_KEY" TString
    TokenSigningKey set_TokenSigningKey;
  env_default "TokenSigningKeyID" "TOKEN_SIGNING_KEY_ID" "v1" TString
    TokenSigningKeyID set_TokenSigningKeyID;
  env_default "TokenIssuer" "TOKEN_ISSUER" "diagnosis-verification-example" TString
    TokenIssuer set_TokenIssuer;
  env_default "PublicKeyCacheDuration" "PUBLIC_KEY_CACHE_DURATION" "15m" TDuration
    PublicKeyCacheDuration set_PublicKeyCacheDuration;
  env_required "CertificateSigningKey" "CERTIFICATE_SIGNING_KEY" TString
    CertificateSigningKey set_CertificateSigningKey;
  env_default "CertificateSigningKeyID" "CERTIFICATE_SIGNING_KEY_ID" "v1" TString
    CertificateSigningKeyID set_CertificateSigningKeyID;
  env_default "CertificateIssuer" "CERTIFICATE_ISSUER" "diagnosis-verification-example"
    TString CertificateIssuer set_CertificateIssuer;
  env_default "CertificateAudience" "CERTIFICATE_AUDIENCE" "exposure-notifications-server"
    TString CertificateAudience set_CertificateAudience;
  env_default "CertificateDuration" "CERTIFICATE_DURATION" "15m" TDuration
    CertificateDuration set_CertificateDuration;
  env_default "CleanupPeriod" "CLEANUP_PERIOD" "15m" TDuration CleanupPeriod set_CleanupPeriod;
  env_default "DisabledUserMaxAge" "DIABLED_USER_MAX_AGE" "336h" TDuration
    DisabledUserMaxAge set_DisabledUserMaxAge;
  env_default "VerificationCodeMaxAge" "VERIFICATION_CODE_MAX_AGE" "24h" TDuration
    VerificationCodeMaxAge set_VerificationCodeMaxAge;
  env_default "VerificationTokenMaxAge" "VERIFICATION_TOKEN_MAX_AGE" "24h" TDuration
    VerificationTokenMaxAge set_VerificationTokenMaxAge;
  env_default "AssetsPath" "ASSETS_PATH" "./cmd/server/assets" TString
    AssetsPath set_AssetsPath;
  env_plain "DevMode" "DEV_MODE" TBool DevMode set_DevMode
].

(** All fields of [Config] in decoding order: the nested [Firebase], the
    nested [Database] (whose own table [database_fields] comes with the
    package that declares it), then the fields of [Config] itself. *)
Definition Config_fields {D : Type} (database_fields : list (Field D)) : list (Field (Config D)) :=
  map (nested "Firebase" Firebase set_Firebase) FirebaseConfig_fields
    ++ map (nested "Database" Database set_Database) database_fields
    ++ Config_own_fields.

(** The zero value of [Config], as [var config Config] makes it. *)
Definition FirebaseConfig_zero : FirebaseConfig :=
  Build_FirebaseConfig "" "" "" "" "" "" "" "".

Definition Config_zero {D : Type} (database_zero : D) : Config D :=
  Build_Config FirebaseConfig_zero database_zero 0 0 0 "" "" 0 0%N 0%N 0 0 0%N 0 "" "" ""
    0 "" "" "" "" 0 0 0 0 0 "" false.

(** *** Type conversion

    The spec (section 4.1, step 4) has the decoder convert the string of a
    field to the semantic type of the field; the conversion functions are
    part of [envconfig] and of Go's library, not of the sources.  They are
    modelled for the literal forms that the defaults of the structures use:
    decimal integers with an optional sign, Go's boolean literals, and Go
    duration literals made of integer-and-unit segments such as [1h30m] (a
    fractional segment such as [1.5h] is outside the model and is rejected). *)

(** Modelled from the spec: the value of a decimal digit (conversion to the
    numeric types of section 3, not in the sources). *)
Definition digit_of (c : ascii) : option N :=
  let n := Ascii.N_of_ascii c in
  if ((48 <=? n) && (n <=? 57))%N then Some (n - 48)%N else None.

(** Modelled from the spec: the value of a string of decimal digits
    (conversion to the numeric types, not in the sources). *)
Fixpoint parse_digits (s : string) (acc : N) : option N :=
  match s with
  | EmptyString => Some acc
  | String c s' =>
      match digit_of c with
      | Some d => parse_digits s' (10 * acc + d)%N
      | None => None
      end
  end.

(** Modelled from the spec: conversion to the unsigned type (64 bits), not
    in the sources. *)
Definition parse_uint (s : string) : option N :=
  match s with
  | EmptyString => None
  | String _ _ =>
      match parse_digits s 0%N with
      | Some n => if (n <? 2 ^ 64)%N then Some n else None
      | None => None
      end
  end.

(** Modelled from the spec: conversion to the int type (64 bits), not in
    the sources. *)
Definition parse_int (s : string) : option Z :=
  let '(neg, body) :=
    match s with
    | String "-" s' => (true, s')
    | String "+" s' => (false, s')
    | _ => (false, s)
    end in
  match body with
  | EmptyString => None
  | String _ _ =>
      match parse_digits body 0%N with
      | Some n =>
          let z := if neg then - Z.of_N n else Z.of_N n in
          if (- 2 ^ 63 <=? z) && (z <? 2 ^ 63) then Some z else None
      | None => None
      end
  end.

(** Modelled from the spec: conversion to the bool type, not in the
    sources. *)
Definition parse_bool (s : string) : option bool :=
  if bool_decide (s ∈ ["1"; "t"; "T"; "TRUE"; "true"; "True"]) then Some true
  else if bool_decide (s ∈ ["0"; "f"; "F"; "FALSE"; "false"; "False"]) then Some false
  else None.

(** Modelled from the spec: the units of a duration literal, in
    nanoseconds (conversion to the duration type, not in the sources). *)
Definition unit_of (u : string) : option N :=
  if String.eqb u "ns" then Some 1%N
  else if String.eqb u "us" then Some 1000%N
  else if String.eqb u "ms" then Some 1000000%N
  else if String.eqb u "s" then Some 1000000000%N
  else if String.eqb u "m" then Some 60000000000%N
  else if String.eqb u "h" then Some 3600000000000%N
  else None.

(** Modelled from the spec: the segments of a duration literal (conversion
    to the duration type, not in the sources), read byte by byte: [total] is
    the value of the finished segments, [num] the digits of the current one
    (if it has any yet) and [unit] the unit bytes read after them. *)
Fixpoint parse_duration_loop (s : string) (total : N) (num : option N) (unit : string)
    : option N :=
  match s with
  | EmptyString =>
      match num, unit with
      | Some n, String _ _ =>
          match unit_of unit with
          | Some u => Some (total + n * u)%N
          | None => None
          end
      | _, _ => None
      end
  | String c s' =>
      match digit_of c with
      | Some d =>
          match unit with
          | EmptyString =>
              parse_duration_loop s' total (Some (10 * default 0%N num + d)%N) EmptyString
          | String _ _ =>
              match num, unit_of unit with
              | Some n, Some u => parse_duration_loop s' (total + n * u)%N (Some d) EmptyString
              | _, _ => None
              end
          end
      | None =>
          if Ascii.eqb c "." then None
          else match num with
               | Some _ => parse_duration_loop s' total num (unit +:+ String c EmptyString)
               | None => None
               end
      end
  end.

(** Modelled from the spec: conversion to the duration type, an [int64] of
    nanoseconds (not in the sources). *)
Definition parse_duration (s : string) : option Duration :=
  let '(neg, body) :=
    match s with
    | String "-" s' => (true, s')
    | String "+" s' => (false, s')
    | _ => (false, s)
    end in
  if String.eqb body "0" then Some 0
  else match parse_duration_loop body 0%N None EmptyString with
       | Some n =>
           let z := if neg then - Z.of_N n else Z.of_N n in
           if (- 2 ^ 63 <=? z) && (z <? 2 ^ 63) then Some z else None
       | None => None
       end.

(** Modelled from the spec: step 4 of section 4.1, the conversion of a
    string to the semantic type of a field ([envconfig], not in the
    sources). *)
Definition convert (t : SemType) (s : string) : option (denote t) :=
  match t return option (denote t) with
  | TString => Some s
  | TInt => parse_int s
  | TUint => parse_uint s
  | TBool => parse_bool s
  | TDuration => parse_duration s
  end.

(** Modelled from the spec: the MutatorFunc of section 3 (the decoder's own
    source is not part of the model), a pure function from a field's
    FieldSpec and its raw value to the resolved value or an error. *)
Definition Mutator : Type := FieldSpec -> string -> error + string.

(** Modelled from the spec: the struct decoder of section 4.1, whose source
    is not part of the model.  Steps 1 and 2: look the key up; an absent
    key falls back on the default, fails when the field is required, and
    otherwise leaves the field alone ([inr None]). *)
Definition lookup_raw (l : Lookuper) (f : FieldSpec) : error + option string :=
  match l (fs_key f) with
  | Some v => inr (Some v)
  | None =>
      match fs_default f with
      | Some d => inr (Some d)
      | None =>
          if fs_required f then inl (MissingRequiredField (fs_key f)) else inr None
      end
  end.

(** Modelled from the spec: step 3 of section 4.1 (the decoder is not in
    the sources): every registered mutator in order; a failure is annotated
    with the field name. *)
Fixpoint apply_mutators (ms : list Mutator) (f : FieldSpec) (v : string) : error + string :=
  match ms with
  | [] => inr v
  | m :: ms' =>
      match m f v with
      | inl e => inl (FieldError (fs_field f) e)
      | inr v' => apply_mutators ms' f v'
      end
  end.

(** Modelled from the spec: one field of the decoder of section 4.1 (not in
    the sources), steps 1 to 4 and the assignment.  The result is the
    structure after the step and the error, if any; the raw value that a
    conversion error carries is the one that was looked up. *)
Definition decode_field {S : Type} (l : Lookuper) (ms : list Mutator) (f : Field S) (s : S)
    : S * option error :=
  match lookup_raw l (f_spec f) with
  | inl e => (s, Some e)
  | inr None => (s, None)
  | inr (Some raw) =>
      match apply_mutators ms (f_spec f) raw with
      | inl e => (s, Some e)
      | inr v =>
          match convert (fs_type (f_spec f)) v with
          | Some x => (f_set f x s, None)
          | None =>
              (s, Some (TypeConversionError (fs_key (f_spec f)) (fs_type (f_spec f)) raw))
          end
      end
  end.

(** Modelled from the spec: the decoder of section 4.1 (not in the sources)
    over the fields in declaration order; the first field error ends the
    call and leaves the structure partially populated. *)
Fixpoint decode {S : Type} (l : Lookuper) (ms : list Mutator) (fields : list (Field S)) (s : S)
    : S * option error :=
  match fields with
  | [] => (s, None)
  | f :: rest =>
      match decode_field l ms f s with
      | (s', Some e) => (s', Some e)
      | (s', None) => decode l ms rest s'
      end
  end.

(** ** The bootstrap orchestrator: [NewWith] *)

(** What [NewWith] uses of the packages whose source is not part of the
    model: [database] (the type of the [Database] field and its zero
    value), [secrets] (the secret manager configuration with the two fields
    that [NewWith] reads, the secret managers, [SecretManagerFor],
    [WrapCacher] and [Resolver]) and [envconfig] ([MutatorFunc] and
    [ProcessWith] at the two structures it is called on).  A function that
    returns a Go pair (value, error) returns a pair here; [ProcessWith]
    receives the structure it fills by reference and returns it with the
    error. *)
Class Packages : Type := {
  database_Config : Type;
  database_Config_zero : database_Config;
  secrets_Config : Type;
  secrets_Config_zero : secrets_Config;
  SecretManagerType : secrets_Config -> string;
  SecretCacheTTL : secrets_Config -> Duration;
  SecretManager : Type;
  MutatorFunc : Type;
  secrets_SecretManagerFor : string -> SecretManager * option error;
  secrets_WrapCacher : SecretManager -> Duration -> SecretManager * option error;
  secrets_Resolver : SecretManager -> secrets_Config -> MutatorFunc;
  envconfig_ProcessWith_secrets :
    secrets_Config -> Lookuper -> list MutatorFunc -> secrets_Config * option error;
  envconfig_ProcessWith_config :
    Config database_Config -> Lookuper -> list MutatorFunc
    -> Config database_Config * option error;
}.

(** Line 76 of the source, the fixup between the main decode and the
    validation: [config.Firebase.DatabaseURL =
    strings.ReplaceAll(config.Firebase.DatabaseURL, "https://", "")]. *)
Definition postprocess {D : Type} (config : Config D) : Config D :=
  set_Firebase
    (set_DatabaseURL (ReplaceAll (DatabaseURL (Firebase config)) "https://" "")
       (Firebase config))
    config.

Section NewWith.

Context `{Packages}.

(** The calls [NewWith] makes, with the arguments that matter to the
    properties below.  A run of [NewWith] is observed as the list of its
    calls in the order they were made. *)
Inductive Call : Type :=
| Call_ProcessWith_secrets
| Call_SecretManagerFor (typ : string)
| Call_WrapCacher (sm : SecretManager) (ttl : Duration)
| Call_Resolver (sm : SecretManager) (smConfig : secrets_Config)
| Call_ProcessWith_config (mutatorFuncs : list MutatorFunc)
| Call_postprocess
| Call_Validate (config : Config database_Config).

(** What [NewWith] returns: [( *Config, error)]. *)
Definition Result : Type := option (Config database_Config) * option error.

(** Computations of [NewWith]: the calls made so far, and either the result
    of a [return] statement that ended the function ([inl]) or the value the
    computation continues with ([inr]). *)
Definition M (A : Type) : Type := list Call * (Result + A).

#[local] Instance M_ret : MRet M := fun A (a : A) => ([], inr a).

#[local] Instance M_bind : MBind M := fun A B (k : A -> M B) (m : M A) =>
  match m with
  | (t, inl r) => (t, inl r)
  | (t, inr a) => let '(t', x) := k a in (t ++ t', x)
  end.

(** [call c v]: make the call [c], which yields [v]. *)
Definition call {A : Type} (c : Call) (v : A) : M A := ([c], inr v).

(** A [return] statement. *)
Definition return_ {A : Type} (r : Result) : M A := ([], inl r).

(** The calls and the result of a function body. *)
Definition run (m : M Result) : list Call * Result :=
  match m with
  | (t, inl r) => (t, r)
  | (t, inr r) => (t, r)
  end.

(** The block that loads the secret manager configuration, connects to the
    secret manager, wraps it in a cache if a TTL was provided, and extends the
    list of mutators. *)
Definition NewWith_secrets (l : Lookuper) (mutatorFuncs : list MutatorFunc)
    : M (list MutatorFunc) :=
  '(smConfig, err) ←
    call Call_ProcessWith_secrets (envconfig_ProcessWith_secrets secrets_Config_zero l []);
  match err with
  | Some e =>
      return_ (None, Some (Errorf "unable to process secret configuration: %w" [ArgError e]))
  | None =>
  '(sm, err) ←
    call (Call_SecretManagerFor (SecretManagerType smConfig))
      (secrets_SecretManagerFor (SecretManagerType smConfig));
  match err with
  | Some e =>
      return_ (None, Some (Errorf "unable to connect to secret manager: %w" [ArgError e]))
  | None =>
  sm ←
    (let ttl := SecretCacheTTL smConfig in
     if 0 <? ttl then
       '(sm', err) ← call (Call_WrapCacher sm ttl) (secrets_WrapCacher sm ttl);
       match err with
       | Some e =>
           return_ (None,
             Some (Errorf "unable to create secret manager cache: %w" [ArgError e]))
       | None => mret sm'
       end
     else mret sm);
  resolver ← call (Call_Resolver sm smConfig) (secrets_Resolver sm smConfig);
  mret (mutatorFuncs ++ [resolver])
  end
  end.

Definition NewWith_body (l : Lookuper) : M Result :=
  mutatorFuncs ← NewWith_secrets l [];
  '(config, err) ←
    call (Call_ProcessWith_config mutatorFuncs)
      (envconfig_ProcessWith_config (Config_zero database_Config_zero) l mutatorFuncs);
  match err with
  | Some e => return_ (None, Some e)
  | None =>
  config ← call Call_postprocess (postprocess config);
  err ← call (Call_Validate config) (Validate config);
  match err with
  | Some e => return_ (None, Some e)
  | None => mret (Some config, None)
  end
  end.

(** [NewWith ctx l]: the calls it makes and its result. *)
Definition NewWith (l : Lookuper) : list Call * Result := run (NewWith_body l).

(** [New ctx], which is [NewWith] over [envconfig.OsLookuper()], the
    lookuper of the process environment [environ]. *)
Definition New (environ : gmap string string) : list Call * Result :=
  NewWith (MapLookuper environ).

(** The position of a call in the order of the bootstrap. *)
Definition stage (c : Call) : nat :=
  match c with
  | Call_ProcessWith_secrets => 0
  | Call_SecretManagerFor _ => 1
  | Call_WrapCacher _ _ => 2
  | Call_Resolver _ _ => 3
  | Call_ProcessWith_config _ => 4
  | Call_postprocess => 5
  | Call_Validate _ => 6
  end.

(** The secret manager that the resolver gets, for the configuration
    [smConfig] and the manager [sm0] that [SecretManagerFor] returned: with a
    positive TTL the one that [WrapCacher] returns for [sm0], and [sm0] itself
    otherwise. *)
Definition resolver_store (smConfig : secrets_Config) (sm0 sm : SecretManager) : Prop :=
  if 0 <? SecretCacheTTL smConfig
  then secrets_WrapCacher sm0 (SecretCacheTTL smConfig) = (sm, None)
  else sm = sm0.

(** The calls of a run that reaches the main decode. *)
Definition calls_to_decode (smConfig : secrets_Config) (sm0 sm : SecretManager) : list Call :=
  [Call_ProcessWith_secrets; Call_SecretManagerFor (SecretManagerType smConfig)]
    ++ (if 0 <? SecretCacheTTL smConfig
        then [Call_WrapCacher sm0 (SecretCacheTTL smConfig)] else [])
    ++ [Call_Resolver sm smConfig;
        Call_ProcessWith_config [secrets_Resolver sm smConfig]].

(** The runs of [NewWith], one rule for each [return] statement of the
    function: the calls made up to it and the result returned. *)
Inductive NewWith_run (l : Lookuper) : list Call -> Result -> Prop :=
| run_secrets_config_fails smConfig e :
    envconfig_ProcessWith_secrets secrets_Config_zero l [] = (smConfig, Some e) ->
    NewWith_run l [Call_ProcessWith_secrets]
      (None, Some (Errorf "unable to process secret configuration: %w" [ArgError e]))
| run_secret_manager_fails smConfig sm0 e :
    envconfig_ProcessWith_secrets secrets_Config_zero l [] = (smConfig, None) ->
    secrets_SecretManagerFor (SecretManagerType smConfig) = (sm0, Some e) ->
    NewWith_run l
      [Call_ProcessWith_secrets; Call_SecretManagerFor (SecretManagerType smConfig)]
      (None, Some (Errorf "unable to connect to secret manager: %w" [ArgError e]))
| run_cache_fails smConfig sm0 sm e :
    envconfig_ProcessWith_secrets secrets_Config_zero l [] = (smConfig, None) ->
    secrets_SecretManagerFor (SecretManagerType smConfig) = (sm0, None) ->
    0 < SecretCacheTTL smConfig ->
    secrets_WrapCacher sm0 (SecretCacheTTL smConfig) = (sm, Some e) ->
    NewWith_run l
      [Call_ProcessWith_secrets; Call_SecretManagerFor (SecretManagerType smConfig);
       Call_WrapCacher sm0 (SecretCacheTTL smConfig)]
      (None, Some (Errorf "unable to create secret manager cache: %w" [ArgError e]))
| run_decode_fails smConfig sm0 sm config e :
    envconfig_ProcessWith_secrets secrets_Config_zero l [] = (smConfig, None) ->
    secrets_SecretManagerFor (SecretManagerType smConfig) = (sm0, None) ->
    resolver_store smConfig sm0 sm ->
    envconfig_ProcessWith_config (Config_zero database_Config_zero) l
      [secrets_Resolver sm smConfig] = (config, Some e) ->
    NewWith_run l (calls_to_decode smConfig sm0 sm) (None, Some e)
| run_validate_fails smConfig sm0 sm config e :
    envconfig_ProcessWith_secrets secrets_Config_zero l [] = (smConfig, None) ->
    secrets_SecretManagerFor (SecretManagerType smConfig) = (sm0, None) ->
    resolver_store smConfig sm0 sm ->
    envconfig_ProcessWith_config (Config_zero database_Config_zero) l
      [secrets_Resolver sm smConfig] = (config, None) ->
    Validate (postprocess config) = Some e ->
    NewWith_run l
      (calls_to_decode smConfig sm0 sm
         ++ [Call_postprocess; Call_Validate (postprocess config)])
      (None, Some e)
| run_ok smConfig sm0 sm config :
    envconfig_ProcessWith_secrets secrets_Config_zero l [] = (smConfig, None) ->
    secrets_SecretManagerFor (SecretManagerType smConfig) = (sm0, None) ->
    resolver_store smConfig sm0 sm ->
    envconfig_ProcessWith_config (Config_zero database_Config_zero) l
      [secrets_Resolver sm smConfig] = (config, None) ->
    Validate (postprocess config) = None ->
    NewWith_run l
      (calls_to_decode smConfig sm0 sm
         ++ [Call_postprocess; Call_Validate (postprocess config)])
      (Some (postprocess config), None).

End NewWith.

(** ** The bootstrap over the struct decoder of the spec *)

Section SpecPackages.

Variable D : Type.
Variable D_zero : D.
Variable D_fields : list (Field D).
Variable SC : Type.
Variable SC_zero : SC.
Variable SC_fields : list (Field SC).
Variable SC_type : SC -> string.
Variable SC_ttl : SC -> Duration.
Variable SM : Type.
Variable SM_for : string -> SM * option error.
Variable SM_wrap : SM -> Duration -> SM * option error.
Variable SM_resolver : SM -> SC -> Mutator.

(** Modelled from the spec: [envconfig.ProcessWith], whose source is not
    part of the model, is the struct decoder of section 4.1 run over the
    table of the structure it is given; the mutators are those of section 3. *)
Definition spec_Packages : Packages := {|
  database_Config := D;
  database_Config_zero := D_zero;
  secrets_Config := SC;
  secrets_Config_zero := SC_zero;
  SecretManagerType := SC_type;
  SecretCacheTTL := SC_ttl;
  SecretManager := SM;
  MutatorFunc := Mutator;
  secrets_SecretManagerFor := SM_for;
  secrets_WrapCacher := SM_wrap;
  secrets_Resolver := SM_resolver;
  envconfig_ProcessWith_secrets := fun s l ms => decode l ms SC_fields s;
  envconfig_ProcessWith_config := fun s l ms => decode l ms (Config_fields D_fields) s;
|}.

End SpecPackages.

(** ** Test doubles

    Concrete stand-ins for the packages outside the model, in the way the
    spec's end-to-end property sets them up: a secret manager configuration
    of two fields, an in-memory secret store that knows one secret, a cache
    wrapper that records its TTL, and a resolver for the [secret://] scheme.
    They only serve to run the definitions above on concrete inputs. *)
Module Double.

Record secrets_Config : Type := {
  Type_ : string;
  CacheTTL : Duration;
}.

Definition set_Type_ (v : string) (c : secrets_Config) : secrets_Config :=
  {| Type_ := v; CacheTTL := CacheTTL c |}.

Definition set_CacheTTL (v : Duration) (c : secrets_Config) : secrets_Config :=
  {| Type_ := Type_ c; CacheTTL := v |}.

Definition secrets_fields : list (Field secrets_Config) := [
  env_default "SecretManagerType" "SECRET_MANAGER" "IN_MEMORY" TString Type_ set_Type_;
  env_default "SecretCacheTTL" "SECRET_CACHE_TTL" "5m" TDuration CacheTTL set_CacheTTL
].

Inductive SecretManager : Type :=
| InMemory
| Cached (inner : SecretManager) (ttl : Duration).

Fixpoint GetSecretValue (sm : SecretManager) (name : string) : error + string :=
  match sm with
  | InMemory =>
      if String.eqb name "projects/p/secrets/s" then inr "abc123"
      else inl (Opaque "secret not found")
  | Cached inner _ => GetSecretValue inner name
  end.

Definition SecretManagerFor (typ : string) : SecretManager * option error :=
  if String.eqb typ "IN_MEMORY" then (InMemory, None)
  else (InMemory, Some (Opaque "unknown secret manager type")).

Definition WrapCacher (sm : SecretManager) (ttl : Duration) : SecretManager * option error :=
  (Cached sm ttl, None).

Definition Resolver (sm : SecretManager) (_ : secrets_Config) : Mutator :=
  fun _ v =>
    if HasPrefix v "secret://" then GetSecretValue sm (string_drop 9 v) else inr v.

Definition packages : Packages :=
  spec_Packages unit tt [] secrets_Config {| Type_ := ""; CacheTTL := 0 |} secrets_fields
    Type_ CacheTTL SecretManager SecretManagerFor WrapCacher Resolver.

(** An environment that sets every required key of [Config]. *)
Definition env_required_keys : gmap string string :=
  list_to_map [
    ("FIREBASE_API_KEY", "k"); ("FIREBASE_AUTH_DOMAIN", "d.example.com");
    ("FIREBASE_DATABASE_URL", "https://db.example.com");
    ("FIREBASE_PROJECT_ID", "p"); ("FIREBASE_STORAGE_BUCKET", "b");
    ("FIREBASE_MESSAGE_SENDER_ID", "1"); ("FIREBASE_APP_ID", "a");
    ("FIREBASE_MEASUREMENT_ID", "m"); ("CSRF_AUTH_KEY", "c");
    ("TOKEN_SIGNING_KEY", "secret://projects/p/secrets/s");
    ("CERTIFICATE_SIGNING_KEY", "s")
  ].

(** The same environment with the secret cache switched off, and with a
    secret manager type that the double does not know. *)
Definition env_no_cache : gmap string string :=
  <["SECRET_CACHE_TTL" := "0"]> env_required_keys.

Definition env_unknown_manager : gmap string string :=
  <["SECRET_MANAGER" := "VAULT"]> env_required_keys.

(** The environment without [TOKEN_SIGNING_KEY]. *)
Definition env_no_token : gmap string string :=
  delete "TOKEN_SIGNING_KEY" env_required_keys.

(** Two environments that spell the secret manager and the cache TTL out and
    lack [TOKEN_SIGNING_KEY]: one lacks [CSRF_AUTH_KEY] as well, the other
    sets a port that is not a number. *)
Definition env_no_token_no_csrf : gmap string string :=
  <["SECRET_MANAGER" := "IN_MEMORY"]>
    (<["SECRET_CACHE_TTL" := "5m"]> (delete "CSRF_AUTH_KEY" env_no_token)).

Definition env_no_token_bad_port : gmap string string :=
  <["SECRET_MANAGER" := "IN_MEMORY"]>
    (<["SECRET_CACHE_TTL" := "5m"]> (<["PORT" := "abc"]> env_no_token)).

(** A decoder of padded standard base64, to run [CSRFKey] on. *)
Definition sextet (c : ascii) : option N :=
  let n := Ascii.N_of_ascii c in
  if ((65 <=? n) && (n <=? 90))%N then Some (n - 65)%N
  else if ((97 <=? n) && (n <=? 122))%N then Some (n - 71)%N
  else if ((48 <=? n) && (n <=? 57))%N then Some (n + 4)%N
  else if (n =? 43)%N then Some 62%N
  else if (n =? 47)%N then Some 63%N
  else None.

Definition byte_of (n : N) : Byte.byte :=
  default Byte.x00 (Byte.of_N (n mod 256)%N).

Fixpoint decode_quads (s : string) : option (list Byte.byte) :=
  match s with
  | EmptyString => Some []
  | String a (String b (String c (String d rest))) =>
      match sextet a, sextet b with
      | Some x, Some y =>
          let b0 := byte_of (x * 4 + y / 16) in
          match sextet c, sextet d, rest with
          | Some z, Some w, _ =>
              tail ← decode_quads rest;
              Some (b0 :: byte_of (y * 16 + z / 4) :: byte_of (z * 64 + w) :: tail)
          | Some z, None, EmptyString =>
              if Ascii.eqb d "=" then Some [b0; byte_of (y * 16 + z / 4)] else None
          | None, None, EmptyString =>
              if Ascii.eqb c "=" && Ascii.eqb d "=" then Some [b0] else None
          | _, _, _ => None
          end
      | _, _ => None
      end
  | _ => None
  end.

Definition DecodeString (s : string) : list Byte.byte * option error :=
  match decode_quads s with
  | Some bs => (bs, None)
  | None => ([], Some (Opaque "illegal base64 data"))
  end.

End Double.

(** The error [checkPositiveDuration] makes for an entry of the table. *)
Definition violation (f : check) : error :=
  Errorf "%v must be a positive duration, got: %v" [ArgString (Name f); ArgDuration (Var f)].

(** The environment key that the [env] tag of the field named [field]
    configures, read off the table of [Config]. *)
Definition env_key_of (field : string) : option string :=
  match
    List.find (fun f => String.eqb (fs_field (f_spec f)) field) (@Config_own_fields unit)
  with
  | Some f => Some (fs_key (f_spec f))
  | None => None
  end.

(** A configuration that [NewWith] returns over the test doubles, every
    optional key left to its default. *)
Definition Double_config : Config unit :=
  default (Config_zero tt)
    (@NewWith Double.packages (MapLookuper Double.env_required_keys)).2.1.

(** Two [FirebaseConfig]s that agree on every field but [DatabaseURL]. *)
Definition FirebaseConfig_same_but_DatabaseURL (a b : FirebaseConfig) : Prop :=
  APIKey a = APIKey b /\ AuthDomain a = AuthDomain b /\ ProjectID a = ProjectID b
  /\ StorageBucket a = StorageBucket b /\ MessageSenderID a = MessageSenderID b
  /\ AppID a = AppID b /\ MeasurementID a = MeasurementID b.

(** Two [Config]s that agree on every field but [Firebase.DatabaseURL]. *)
Definition Config_same_but_DatabaseURL {D : Type} (a b : Config D) : Prop :=
  FirebaseConfig_same_but_DatabaseURL (Firebase a) (Firebase b)
  /\ Database a = Database b /\ Port a = Port b
  /\ SessionCookieDuration a = SessionCookieDuration b
  /\ RevokeCheckPeriod a = RevokeCheckPeriod b /\ CSRFAuthKey a = CSRFAuthKey b
  /\ ServerName a = ServerName b /\ CodeDuration a = CodeDuration b
  /\ CodeDigits a = CodeDigits b /\ CollisionRetryCount a = CollisionRetryCount b
  /\ AllowedTestAge a = AllowedTestAge b /\ APIKeyCacheDuration a = APIKeyCacheDuration b
  /\ RateLimit a = RateLimit b
  /\ VerificationTokenDuration a = VerificationTokenDuration b
  /\ TokenSigningKey a = TokenSigningKey b /\ TokenSigningKeyID a = TokenSigningKeyID b
  /\ TokenIssuer a = TokenIssuer b
  /\ PublicKeyCacheDuration a = PublicKeyCacheDuration b
  /\ CertificateSigningKey a = CertificateSigningKey b
  /\ CertificateSigningKeyID a = CertificateSigningKeyID b
  /\ CertificateIssuer a = CertificateIssuer b
  /\ CertificateAudience a = CertificateAudience b
  /\ CertificateDuration a = CertificateDuration b /\ CleanupPeriod a = CleanupPeriod b
  /\ DisabledUserMaxAge a = DisabledUserMaxAge b
  /\ VerificationCodeMaxAge a = VerificationCodeMaxAge b
  /\ VerificationTokenMaxAge a = VerificationTokenMaxAge b
  /\ AssetsPath a = AssetsPath b /\ DevMode a = DevMode b.

(** The environment keys of the fields of a table that are tagged
    [required]. *)
Definition required_keys {S : Type} (fields : list (Field S)) : list string :=
  map (fun f => fs_key (f_spec f)) (List.filter (fun f => fs_required (f_spec f)) fields).

(** The decoder gets through the field [f]: its lookup, its mutators and its
    conversion succeed (whatever the structure holds). *)
Definition field_passes {S : Type} (l : Lookuper) (ms : list Mutator) (f : Field S) : Prop :=
  forall s, (decode_field l ms f s).2 = None.

(** No mutator of [ms] matches the value [v] of the field [f]: each passes
    it through unchanged. *)
Definition unmatched (ms : list Mutator) (f : FieldSpec) (v : string) : Prop :=
  Forall (fun m => m f v = inr v) ms.

(** Modelled from the spec: the error that steps 1 to 4 of section 4.1 give
    for one field, or none when the field gets through them (the decoder is
    not in the sources): the lookup error of a required key that is absent,
    the annotated error of the first mutator that fails, or the conversion
    error, which carries the raw value that was looked up. *)
Definition field_error (l : Lookuper) (ms : list Mutator) (f : FieldSpec) : option error :=
  match lookup_raw l f with
  | inl e => Some e
  | inr None => None
  | inr (Some raw) =>
      match apply_mutators ms f raw with
      | inl e => Some e
      | inr v =>
          match convert (fs_type f) v with
          | Some _ => None
          | None => Some (TypeConversionError (fs_key f) (fs_type f) raw)
          end
      end
  end.

(** Modelled from the spec: the error of the first field of a table, in
    declaration order, that does not get through steps 1 to 4 of section
    4.1; none when every field does. *)
Fixpoint first_field_error {S : Type} (l : Lookuper) (ms : list Mutator)
    (fields : list (Field S)) : option error :=
  match fields with
  | [] => None
  | f :: rest =>
      match field_error l ms (f_spec f) with
      | Some e => Some e
      | None => first_field_error l ms rest
      end
  end.

(** ** Further definitions: what [Validate] reads, [Config.FirebaseConfig] *)

(** Two configurations that agree on the ten durations that the table of
    [Validate] reads. *)
Definition same_checked_durations {D1 D2 : Type} (a : Config D1) (b : Config D2) : Prop :=
  SessionCookieDuration a = SessionCookieDuration b
  /\ RevokeCheckPeriod a = RevokeCheckPeriod b
  /\ CodeDuration a = CodeDuration b
  /\ AllowedTestAge a = AllowedTestAge b
  /\ APIKeyCacheDuration a = APIKeyCacheDuration b
  /\ VerificationCodeMaxAge a = VerificationCodeMaxAge b
  /\ PublicKeyCacheDuration a = PublicKeyCacheDuration b
  /\ CleanupPeriod a = CleanupPeriod b
  /\ DisabledUserMaxAge a = DisabledUserMaxAge b
  /\ VerificationTokenMaxAge a = VerificationTokenMaxAge b.

(** The fields of [firebase.Config], of the firebase SDK, that
    [Config.FirebaseConfig] sets; the struct literal leaves the others at
    their zero value. *)
Record firebase_Config : Type := {
  firebase_DatabaseURL : string;
  firebase_ProjectID : string;
  firebase_StorageBucket : string;
}.

(** [Config.FirebaseConfig]: the firebase SDK config based on the local env
    config. *)
Definition Config_FirebaseConfig {D : Type} (c : Config D) : firebase_Config :=
  {| firebase_DatabaseURL := DatabaseURL (Firebase c);
     firebase_ProjectID := ProjectID (Firebase c);
     firebase_StorageBucket := StorageBucket (Firebase c) |}.

(** Where an error [e] of [NewWith] comes from: one of the three stages that
    set up the secret manager, whose error [NewWith] wraps with the message
    of the stage; or, once these stages have succeeded and fixed the store
    of the resolver, the main decode run with that resolver, or the
    validation of the structure it decoded, whose error [NewWith] returns as
    it is (the error of the first negative entry of the table). *)
Definition NewWith_error_source `{Packages} (l : Lookuper) (e : error) : Prop :=
  (exists smConfig e0,
      envconfig_ProcessWith_secrets secrets_Config_zero l [] = (smConfig, Some e0)
      /\ e = Errorf "unable to process secret configuration: %w" [ArgError e0])
  \/ (exists smConfig sm0 e0,
        envconfig_ProcessWith_secrets secrets_Config_zero l [] = (smConfig, None)
        /\ secrets_SecretManagerFor (SecretManagerType smConfig) = (sm0, Some e0)
        /\ e = Errorf "unable to connect to secret manager: %w" [ArgError e0])
  \/ (exists smConfig sm0 sm e0,
        envconfig_ProcessWith_secrets secrets_Config_zero l [] = (smConfig, None)
        /\ secrets_SecretManagerFor (SecretManagerType smConfig) = (sm0, None)
        /\ 0 < SecretCacheTTL smConfig
        /\ secrets_WrapCacher sm0 (SecretCacheTTL smConfig) = (sm, Some e0)
        /\ e = Errorf "unable to create secret manager cache: %w" [ArgError e0])
  \/ (exists smConfig sm0 sm config,
        envconfig_ProcessWith_secrets secrets_Config_zero l [] = (smConfig, None)
        /\ secrets_SecretManagerFor (SecretManagerType smConfig) = (sm0, None)
        /\ resolver_store smConfig sm0 sm
        /\ envconfig_ProcessWith_config (Config_zero database_Config_zero) l
             [secrets_Resolver sm smConfig] = (config, Some e))
  \/ (exists smConfig sm0 sm config pre f post,
        envconfig_ProcessWith_secrets secrets_Config_zero l [] = (smConfig, None)
        /\ secrets_SecretManagerFor (SecretManagerType smConfig) = (sm0, None)
        /\ resolver_store smConfig sm0 sm
        /\ envconfig_ProcessWith_config (Config_zero database_Config_zero) l
             [secrets_Resolver sm smConfig] = (config, None)
        /\ Validate_fields (postprocess config) = pre ++ f :: post
        /\ Forall (fun g => 0 <= Var g) pre
        /\ Var f < 0
        /\ e = violation f).

(* ================================================================== *)
(** * Part II: theorems *)
(* ================================================================== *)

(** ** [checkPositiveDuration] and [Validate] *)

Lemma checkPositiveDuration_ok (d : Duration) (name : string) :
  checkPositiveDuration d name = None <-> 0 <= d.
Proof.
  unfold checkPositiveDuration.
  destruct (Z.ltb_spec d 0); split; intros; try discriminate; try reflexivity; lia.
Qed.

Lemma checkPositiveDuration_violation (f : check) :
  Var f < 0 -> checkPositiveDuration (Var f) (Name f) = Some (violation f).
Proof.
  intros Hneg. unfold checkPositiveDuration.
  destruct (Z.ltb_spec (Var f) 0); [reflexivity | lia].
Qed.

(** The loop passes exactly the tables without a negative entry. *)
Lemma Validate_loop_ok (fields : list check) :
  Validate_loop fields = None <-> Forall (fun f => 0 <= Var f) fields.
Proof.
  induction fields as [|f rest IH]; simpl.
  - split; [constructor | reflexivity].
  - destruct (checkPositiveDuration (Var f) (Name f)) eqn:Hc.
    + split; [discriminate |].
      intros Hall. apply Forall_cons in Hall as [Hf _].
      apply checkPositiveDuration_ok with (name := Name f) in Hf. congruence.
    + apply checkPositiveDuration_ok in Hc. rewrite IH. split.
      * intros Hall. by constructor.
      * intros Hall. by apply Forall_cons in Hall as [_ Hrest].
Qed.

(** The loop stops at the first negative entry and returns its error. *)
Lemma Validate_loop_first (pre post : list check) (f : check) :
  Forall (fun g => 0 <= Var g) pre ->
  Var f < 0 ->
  Validate_loop (pre ++ f :: post) = Some (violation f).
Proof.
  intros Hpre Hneg. induction Hpre as [|g pre Hg _ IH]; simpl.
  - by rewrite checkPositiveDuration_violation.
  - apply checkPositiveDuration_ok with (name := Name g) in Hg. by rewrite Hg.
Qed.

(** Every error of the loop is the error of a first negative entry. *)
Lemma Validate_loop_error (fields : list check) (e : error) :
  Validate_loop fields = Some e ->
  exists pre f post,
    fields = pre ++ f :: post /\ Forall (fun g => 0 <= Var g) pre /\ Var f < 0
    /\ e = violation f.
Proof.
  induction fields as [|g rest IH]; simpl; [discriminate |].
  destruct (checkPositiveDuration (Var g) (Name g)) eqn:Hc.
  - intros [= <-]. exists [], g, rest.
    assert (Hneg : Var g < 0).
    { destruct (Z.lt_ge_cases (Var g) 0) as [|Hge]; [done |].
      apply checkPositiveDuration_ok with (name := Name g) in Hge. congruence. }
    split_and!; [done | constructor | done |].
    rewrite checkPositiveDuration_violation in Hc by done. congruence.
  - intros He. destruct (IH He) as (pre & f & post & -> & Hpre & Hneg & ->).
    exists (g :: pre), f, post. split_and!; try done.
    constructor; [by apply checkPositiveDuration_ok in Hc | done].
Qed.

(** [Validate] returns an error exactly when an entry of its table is
    negative. *)
Lemma Validate_error_iff {D : Type} (c : Config D) :
  Validate c <> None <-> Exists (fun f => Var f < 0) (Validate_fields c).
Proof.
  unfold Validate. rewrite Validate_loop_ok. split.
  - intros Hno. apply not_Forall_Exists in Hno; [| intros f; apply Z_le_dec].
    eapply Exists_impl; [exact Hno |]. simpl. intros f Hf. lia.
  - intros Hex Hall. apply Exists_exists in Hex as (f & Hin & Hneg).
    rewrite Forall_forall in Hall. specialize (Hall f Hin). simpl in Hall. lia.
Qed.

(** C1 (the code departs from the claim).  An error of [Validate] carries
    the name written in the table, and for four of the eleven entries that
    name is not the environment key of the duration it checks.  Here: a
    negative [SessionCookieDuration] is reported as [SESSION_DUATION] while
    its key is [SESSION_DURATION], and a negative [VerificationCodeMaxAge]
    is reported as [VERIFICATION_TOKEN_DURATION] while its key is
    [VERIFICATION_CODE_MAX_AGE]. *)
Theorem Validate_names_other_than_env_key :
  Validate (set_SessionCookieDuration (-1) Double_config)
    = Some (violation {| Var := -1; Name := "SESSION_DUATION" |})
  /\ error_name (violation {| Var := -1; Name := "SESSION_DUATION" |})
     = Some "SESSION_DUATION"
  /\ env_key_of "SessionCookieDuration" = Some "SESSION_DURATION"
  /\ Validate (set_VerificationCodeMaxAge (-1) Double_config)
    = Some (violation {| Var := -1; Name := "VERIFICATION_TOKEN_DURATION" |})
  /\ error_name (violation {| Var := -1; Name := "VERIFICATION_TOKEN_DURATION" |})
     = Some "VERIFICATION_TOKEN_DURATION"
  /\ env_key_of "VerificationCodeMaxAge" = Some "VERIFICATION_CODE_MAX_AGE".
Proof. repeat split; vm_compute; reflexivity. Qed.

(** C7.  [Validate] returns an error [e] exactly when its table splits into
    entries that are all zero or positive, a negative entry [f], and a rest
    that is not looked at; [e] is then the one error made for [f], carrying
    the name and the value of [f] only.  So with several negative durations
    the first one in table order is reported and no other. *)
Theorem Validate_first_violation {D : Type} (c : Config D) (e : error) :
  Validate c = Some e
  <-> exists pre f post,
        Validate_fields c = pre ++ f :: post
        /\ Forall (fun g => 0 <= Var g) pre
        /\ Var f < 0
        /\ e = Errorf "%v must be a positive duration, got: %v"
                 [ArgString (Name f); ArgDuration (Var f)].
Proof.
  unfold Validate. split.
  - apply Validate_loop_error.
  - intros (pre & f & post & -> & Hpre & Hneg & ->).
    by apply Validate_loop_first.
Qed.

Lemma Validate_first_violation_witness :
  Validate (set_CleanupPeriod (-5) (set_CodeDuration (-1) Double_config))
  = Some (Errorf "%v must be a positive duration, got: %v"
            [ArgString "CODE_DURATION"; ArgDuration (-1)]).
Proof.
  apply (proj2 (Validate_first_violation
                  (set_CleanupPeriod (-5) (set_CodeDuration (-1) Double_config)) _)).
  exists [ {| Var := 24 * Hour; Name := "SESSION_DUATION" |};
           {| Var := 5 * Minute; Name := "REVOKE_CHECK_DURATION" |} ],
         {| Var := -1; Name := "CODE_DURATION" |},
         [ {| Var := 336 * Hour; Name := "ALLOWED_PAST_TEST_DAYS" |};
           {| Var := 5 * Minute; Name := "API_KEY_CACHE_DURATION" |};
           {| Var := 24 * Hour; Name := "VERIFICATION_TOKEN_DURATION" |};
           {| Var := 15 * Minute; Name := "PUBLIC_KEY_CACHE_DURATION" |};
           {| Var := -5; Name := "CLEANUP_PERIOD" |};
           {| Var := 336 * Hour; Name := "DISABLED_USER_MAX_AGE" |};
           {| Var := 24 * Hour; Name := "VERIFICATION_CODE_MAX_AGE" |};
           {| Var := 24 * Hour; Name := "VERIFICATION_TOKEN_MAX_AGE" |} ].
  split_and!.
  - vm_compute. reflexivity.
  - repeat constructor; vm_compute; discriminate.
  - simpl. lia.
  - reflexivity.
Defined.

(** Assigning to [VerificationTokenDuration] leaves the table of [Validate]
    as it is: no entry reads that field. *)
Lemma Validate_fields_set_VerificationTokenDuration {D : Type} (c : Config D) (d : Duration) :
  Validate_fields (set_VerificationTokenDuration d c) = Validate_fields c.
Proof. destruct c. reflexivity. Qed.

(** C9.  The result of [Validate] does not depend on
    [VerificationTokenDuration]: two configurations that differ in that
    field only get the same result; and a configuration whose
    [VerificationTokenDuration] is negative passes as soon as the durations
    in the table are zero or positive. *)
Theorem Validate_ignores_VerificationTokenDuration {D : Type} :
  (forall (c : Config D) (d : Duration),
      Validate (set_VerificationTokenDuration d c) = Validate c)
  /\ (forall c : Config D,
        VerificationTokenDuration c < 0 ->
        Forall (fun f => 0 <= Var f) (Validate_fields c) ->
        Validate c = None).
Proof.
  split.
  - intros c d. unfold Validate.
    by rewrite Validate_fields_set_VerificationTokenDuration.
  - intros c _ Hall. by apply Validate_loop_ok.
Qed.

Lemma Validate_ignores_VerificationTokenDuration_witness :
  VerificationTokenDuration (set_VerificationTokenDuration (- Hour) Double_config) < 0
  /\ Validate (set_VerificationTokenDuration (- Hour) Double_config) = None.
Proof.
  split; [vm_compute; reflexivity |].
  apply (proj2 (@Validate_ignores_VerificationTokenDuration unit)).
  - vm_compute. reflexivity.
  - repeat constructor; vm_compute; discriminate.
Defined.

(** ** [CSRFKey] *)

(** C8.  Whatever the base64 decoder is, [CSRFKey] returns an error exactly
    when decoding [CSRFAuthKey] fails or yields other than 32 bytes; without
    an error it returns the decoded bytes, all 32 of them, and with an error
    it returns no key. *)
Theorem CSRFKey_error_iff {D : Type}
    (DecodeString : string -> list Byte.byte * option error) (c : Config D) :
  ((CSRFKey DecodeString c).2 <> None
   <-> (DecodeString (CSRFAuthKey c)).2 <> None
       \/ length (DecodeString (CSRFAuthKey c)).1 <> 32%nat)
  /\ ((CSRFKey DecodeString c).2 = None ->
      (CSRFKey DecodeString c).1 = Some (DecodeString (CSRFAuthKey c)).1
      /\ length (DecodeString (CSRFAuthKey c)).1 = 32%nat)
  /\ ((CSRFKey DecodeString c).2 <> None -> (CSRFKey DecodeString c).1 = None).
Proof.
  unfold CSRFKey.
  destruct (DecodeString (CSRFAuthKey c)) as [key [e|]]; simpl.
  - split_and!; [split; [by left | discriminate] | discriminate | reflexivity].
  - destruct (Nat.eqb_spec (length key) 32) as [Hlen|Hlen]; simpl.
    + split_and!; [| done | done].
      split; [done | intros [? | ?]; done].
    + split_and!; [| discriminate | reflexivity].
      split; [by right | discriminate].
Qed.

Lemma CSRFKey_error_iff_witness :
  (CSRFKey Double.DecodeString
     (set_CSRFAuthKey "MDEyMzQ1Njc4OWFiY2RlZjAxMjM0NTY3ODlhYmNkZWY=" Double_config)).2 = None
  /\ length (Double.DecodeString "MDEyMzQ1Njc4OWFiY2RlZjAxMjM0NTY3ODlhYmNkZWY=").1 = 32%nat
  /\ (CSRFKey Double.DecodeString (set_CSRFAuthKey "aGVsbG8=" Double_config)).1 = None.
Proof.
  split_and!.
  - vm_compute. reflexivity.
  - apply (proj1 (proj2 (CSRFKey_error_iff Double.DecodeString
      (set_CSRFAuthKey "MDEyMzQ1Njc4OWFiY2RlZjAxMjM0NTY3ODlhYmNkZWY=" Double_config)))).
    vm_compute. reflexivity.
  - apply (proj2 (proj2 (CSRFKey_error_iff Double.DecodeString
      (set_CSRFAuthKey "aGVsbG8=" Double_config)))).
    vm_compute. discriminate.
Defined.

(** ** [GetUser] *)

(** C10, as the claim states it, fails: when the request context holds a nil
    [*database.User] under ["user"], the type assertion succeeds and
    [GetUser] returns that nil pointer with a nil error. *)
Lemma GetUser_nil_user_nil_error :
  (GetUser (User := unit) (fun _ msg w => msg :: w) []
     {| context_data := Some {[ "user" := UserPtr None ]} |})
  = ([], (None, None)).
Proof. vm_compute. reflexivity. Qed.

(** C10, amended.  [GetUser] returns a nil error exactly when the request
    context holds a value of type [*database.User] under ["user"]; it then
    returns the stored pointer as it is and adds no flash message, so the
    user is non-nil whenever the stored pointer is.  With a non-nil error
    the user is nil: the error is "unauthorized" (and the flash message
    "Unauthorized" is added) when the context holds no ["user"] value, and
    "internal error" (with its flash message) when the value is not a
    [*database.User]. *)
Theorem GetUser_result {User World : Type} (flash_Error : Request User -> string -> World -> World)
    (w : World) (r : Request User) :
  ((GetUser flash_Error w r).2.2 = None
   <-> exists p, context_GetOk r "user" = (UserPtr p, true))
  /\ (forall p, context_GetOk r "user" = (UserPtr p, true) ->
        GetUser flash_Error w r = (w, (p, None)))
  /\ ((GetUser flash_Error w r).2.2 <> None -> (GetUser flash_Error w r).2.1 = None)
  /\ ((context_GetOk r "user").2 = false ->
        GetUser flash_Error w r
        = (flash_Error r "Unauthorized" w, (None, Some (Errorf "unauthorized" []))))
  /\ ((context_GetOk r "user").2 = true ->
      (forall p, (context_GetOk r "user").1 <> UserPtr p) ->
        GetUser flash_Error w r
        = (flash_Error r "internal error - you have been logged out." w,
           (None, Some (Errorf "internal error" []))))
  /\ ((forall u, context_GetOk r "user" <> (UserPtr None, u)) ->
        (is_Some (GetUser flash_Error w r).2.1 <-> (GetUser flash_Error w r).2.2 = None)).
Proof.
  unfold GetUser.
  destruct (context_GetOk r "user") as [v [|]] eqn:Hget; simpl;
    [destruct v as [|p|t]; simpl |].
  all: split_and!.
  all: try (split; [discriminate | intros [? [=]]]).
  all: try (intros; congruence).
  all: try (intros; split; [intros [? [=]] | discriminate]).
  - split; [eauto | reflexivity].
  - intros Hnil. split; [reflexivity |]. intros _.
    destruct p as [u|]; [by exists u | by destruct (Hnil true)].
Qed.

Lemma GetUser_result_witness :
  (GetUser (User := nat) (fun _ msg w => msg :: w) []
     {| context_data := Some {[ "user" := UserPtr (Some 7%nat) ]} |})
  = ([], (Some 7%nat, None))
  /\ (GetUser (User := nat) (fun _ msg w => msg :: w) []
        {| context_data := Some {[ "user" := OtherValue "string" ]} |})
     = (["internal error - you have been logged out."],
        (None, Some (Errorf "internal error" [])))
  /\ (GetUser (User := nat) (fun _ msg w => msg :: w) [] {| context_data := None |})
     = (["Unauthorized"], (None, Some (Errorf "unauthorized" []))).
Proof.
  split_and!.
  - apply (proj1 (proj2 (GetUser_result (User := nat) (fun _ msg w => msg :: w) []
      {| context_data := Some {[ "user" := UserPtr (Some 7%nat) ]} |}))).
    vm_compute. reflexivity.
  - apply (proj1 (proj2 (proj2 (proj2 (proj2
      (GetUser_result (User := nat) (fun _ msg w => msg :: w) []
         {| context_data := Some {[ "user" := OtherValue "string" ]} |})))))).
    + vm_compute. reflexivity.
    + intros p. vm_compute. discriminate.
  - apply (proj1 (proj2 (proj2 (proj2
      (GetUser_result (User := nat) (fun _ msg w => msg :: w) []
         {| context_data := None |}))))).
    vm_compute. reflexivity.
Defined.

(** ** [strings.ReplaceAll] and the fixup of [Firebase.DatabaseURL] *)

Lemma string_drop_length (n : nat) (s : string) :
  (String.length (string_drop n s) <= String.length s - n)%nat.
Proof.
  revert s. induction n as [|n IH]; intros [|c s]; simpl; try lia. apply IH.
Qed.

(** A non-empty [substr] occurs in non-empty strings only. *)
Lemma Index_Some_nonempty (s substr : string) (i : nat) :
  substr <> EmptyString -> Index s substr = Some i -> s <> EmptyString.
Proof. intros Hne Hi ->. destruct substr; [done | discriminate]. Qed.

(** The fuel of [Count] is enough: more fuel counts the same occurrences. *)
Lemma Count_loop_fuel (substr : string) (fuel1 fuel2 : nat) (s : string) :
  substr <> EmptyString ->
  (String.length s <= fuel1)%nat -> (String.length s <= fuel2)%nat ->
  Count_loop fuel1 s substr = Count_loop fuel2 s substr.
Proof.
  intros Hne. revert fuel2 s.
  induction fuel1 as [|fuel1 IH]; intros fuel2 s H1 H2.
  - destruct s; [| simpl in H1; lia].
    destruct fuel2; simpl; [done |]. by destruct substr.
  - destruct fuel2 as [|fuel2].
    + destruct s; [| simpl in H2; lia]. simpl. by destruct substr.
    + simpl. destruct (Index s substr) as [i|] eqn:Hi; [| done].
      f_equal. pose proof (Index_Some_nonempty _ _ _ Hne Hi) as Hs.
      pose proof (string_drop_length (i + String.length substr) s) as Hd.
      assert (0 < String.length substr)%nat by (destruct substr; simpl; [done | lia]).
      assert (0 < String.length s)%nat by (destruct s; simpl; [done | lia]).
      apply IH; lia.
Qed.

Lemma Count_absent (s substr : string) : Index s substr = None -> Count s substr = O.
Proof.
  intros Hi. unfold Count. destruct (String.length s); simpl; [done |]. by rewrite Hi.
Qed.

(** A string in which a non-empty [old] does not occur is left as it is. *)
Lemma ReplaceAll_absent (s old new : string) :
  Contains s old = false -> ReplaceAll s old new = s.
Proof.
  unfold Contains, ReplaceAll. destruct (Index s old) eqn:Hi; [discriminate |].
  intros _. case_decide; [done |]. destruct old; [done |].
  by rewrite (Count_absent _ _ Hi).
Qed.

Lemma HasPrefix_app (old rest : string) : HasPrefix (old +:+ rest) old = true.
Proof.
  induction old as [|c old IH]; [by destruct rest |].
  change (String c old +:+ rest) with (String c (old +:+ rest)). simpl.
  by rewrite Ascii.eqb_refl.
Qed.

Lemma string_drop_app (old rest : string) :
  string_drop (String.length old) (old +:+ rest) = rest.
Proof. induction old as [|c old IH]; [by destruct rest | exact IH]. Qed.

Lemma Index_unfold (s substr : string) :
  Index s substr
  = if HasPrefix s substr then Some O
    else match s with
         | EmptyString => None
         | String _ s' => option_map S (Index s' substr)
         end.
Proof. by destruct s. Qed.

Lemma Count_loop_prefix (fuel : nat) (old rest : string) :
  Index rest old = None -> Count_loop (S fuel) (old +:+ rest) old = 1%nat.
Proof.
  intros Hi. cbn [Count_loop].
  rewrite Index_unfold, HasPrefix_app. cbn [Nat.add]. rewrite string_drop_app.
  destruct fuel; simpl; [done |]. by rewrite Hi.
Qed.

Lemma Replace_loop_prefix (old new rest : string) :
  Replace_loop 1 (old +:+ rest) old new = new +:+ rest.
Proof.
  cbn [Replace_loop]. rewrite Index_unfold, HasPrefix_app.
  cbn [Nat.add string_take]. by rewrite string_drop_app.
Qed.

(** One leading occurrence in front of a rest without occurrence is
    replaced, and nothing else. *)
Lemma ReplaceAll_prefix (old new rest : string) :
  old <> EmptyString -> old <> new ->
  Contains rest old = false ->
  ReplaceAll (old +:+ rest) old new = new +:+ rest.
Proof.
  intros Hne Hdiff. unfold Contains.
  destruct (Index rest old) eqn:Hi; [discriminate |]. intros _.
  unfold ReplaceAll. case_decide; [done |].
  destruct old as [|c old'] eqn:Hold; [done |]. rewrite <- Hold in *.
  unfold Count.
  assert (Hlen : exists n, String.length (old +:+ rest) = S n).
  { rewrite Hold. by exists (String.length (old' +:+ rest)). }
  destruct Hlen as [n ->].
  rewrite Count_loop_prefix by done. cbn [Nat.eqb].
  apply Replace_loop_prefix.
Qed.

(** One leading scheme in front of a scheme-free rest is stripped. *)
Lemma ReplaceAll_https_prefix (host : string) :
  Contains host "https://" = false ->
  ReplaceAll ("https://" +:+ host) "https://" "" = host.
Proof. intros Hfree. by rewrite ReplaceAll_prefix. Qed.

(** [postprocess] assigns to [Firebase.DatabaseURL] only. *)
Lemma postprocess_frame {D : Type} (c : Config D) :
  Config_same_but_DatabaseURL c (postprocess c).
Proof. destruct c as [[] ?]. repeat split. Qed.

(** C6, as the claim states it, fails: [strings.ReplaceAll] removes the
    occurrences it finds in one pass from left to right, and removing one can
    bring the two halves of another together. *)
Lemma postprocess_leaves_https :
  DatabaseURL (Firebase (postprocess
    (set_Firebase (set_DatabaseURL "hthttps://tps://x" (Firebase Double_config))
       Double_config)))
  = "https://x"
  /\ Contains "https://x" "https://" = true.
Proof. split; vm_compute; reflexivity. Qed.

(** C6, amended.  [postprocess] changes [Firebase.DatabaseURL] only, to the
    result of [strings.ReplaceAll] on it; every other field of the decoded
    [Config] stays as it was.  The stored value is free of ["https://"] when
    the decoded value is free of it (it is then unchanged) or is ["https://"]
    followed by a string free of it (which is then what is stored). *)
Theorem postprocess_DatabaseURL {D : Type} (c : Config D) :
  Config_same_but_DatabaseURL c (postprocess c)
  /\ DatabaseURL (Firebase (postprocess c))
     = ReplaceAll (DatabaseURL (Firebase c)) "https://" ""
  /\ (Contains (DatabaseURL (Firebase c)) "https://" = false ->
      DatabaseURL (Firebase (postprocess c)) = DatabaseURL (Firebase c))
  /\ (forall host,
        DatabaseURL (Firebase c) = "https://" +:+ host ->
        Contains host "https://" = false ->
        DatabaseURL (Firebase (postprocess c)) = host
        /\ Contains (DatabaseURL (Firebase (postprocess c))) "https://" = false).
Proof.
  assert (Hurl : DatabaseURL (Firebase (postprocess c))
                 = ReplaceAll (DatabaseURL (Firebase c)) "https://" "").
  { by destruct c as [[] ?]. }
  split_and!.
  - apply postprocess_frame.
  - exact Hurl.
  - intros Hfree. rewrite Hurl. by apply ReplaceAll_absent.
  - intros host Hhost Hfree. rewrite Hurl, Hhost.
    rewrite ReplaceAll_https_prefix by done. done.
Qed.

Lemma postprocess_DatabaseURL_witness :
  DatabaseURL (Firebase (postprocess
    (set_Firebase (set_DatabaseURL "https://db.example.com" (Firebase Double_config))
       Double_config)))
  = "db.example.com".
Proof.
  apply (proj2 (proj2 (proj2 (postprocess_DatabaseURL
    (set_Firebase (set_DatabaseURL "https://db.example.com" (Firebase Double_config))
       Double_config))))).
  - vm_compute. reflexivity.
  - vm_compute. reflexivity.
Defined.

(** ** [NewWith] *)

(** A call is in a list of calls that is written out. *)
Ltac call_made :=
  simpl; repeat first [apply list_elem_of_here | apply list_elem_of_further].

(** The cases of a call being in a list of calls that is written out: the
    positions whose call has the same head remain, and the unknown tail. *)
Ltac call_cases H :=
  simpl in H;
  repeat match type of H with
         | _ ∈ _ :: _ => apply elem_of_cons in H as [H|H]; [try discriminate H |]
         | _ ∈ [] => by apply elem_of_nil in H
         end.

Section NewWith_facts.

Context `{Packages}.

(** Every run of [NewWith] is one of the runs of [NewWith_run]. *)
Lemma NewWith_runs (l : Lookuper) : NewWith_run l (NewWith l).1 (NewWith l).2.
Proof.
  unfold NewWith, NewWith_body, NewWith_secrets, run, call, return_.
  unfold mbind, M_bind, mret, M_ret.
  destruct (envconfig_ProcessWith_secrets secrets_Config_zero l []) as [sc [e|]] eqn:Hmeta;
    simpl; [by eapply run_secrets_config_fails |].
  destruct (secrets_SecretManagerFor (SecretManagerType sc)) as [sm0 [e|]] eqn:Hsm;
    simpl; [by eapply run_secret_manager_fails |].
  destruct (0 <? SecretCacheTTL sc) eqn:Httl; simpl.
  - destruct (secrets_WrapCacher sm0 (SecretCacheTTL sc)) as [sm [e|]] eqn:Hwrap; simpl.
    { eapply run_cache_fails; eauto. by apply Z.ltb_lt. }
    destruct (envconfig_ProcessWith_config (Config_zero database_Config_zero) l
                [secrets_Resolver sm sc]) as [config [e|]] eqn:Hdec; simpl.
    { pose proof (run_decode_fails l sc sm0 sm config e Hmeta Hsm) as Hrun.
      unfold resolver_store, calls_to_decode in Hrun. rewrite Httl in Hrun. by apply Hrun. }
    destruct (Validate (postprocess config)) as [e|] eqn:Hval; simpl.
    { pose proof (run_validate_fails l sc sm0 sm config e Hmeta Hsm) as Hrun.
      unfold resolver_store, calls_to_decode in Hrun. rewrite Httl in Hrun. by apply Hrun. }
    pose proof (run_ok l sc sm0 sm config Hmeta Hsm) as Hrun.
    unfold resolver_store, calls_to_decode in Hrun. rewrite Httl in Hrun. by apply Hrun.
  - destruct (envconfig_ProcessWith_config (Config_zero database_Config_zero) l
                [secrets_Resolver sm0 sc]) as [config [e|]] eqn:Hdec; simpl.
    { pose proof (run_decode_fails l sc sm0 sm0 config e Hmeta Hsm) as Hrun.
      unfold resolver_store, calls_to_decode in Hrun. rewrite Httl in Hrun. by apply Hrun. }
    destruct (Validate (postprocess config)) as [e|] eqn:Hval; simpl.
    { pose proof (run_validate_fails l sc sm0 sm0 config e Hmeta Hsm) as Hrun.
      unfold resolver_store, calls_to_decode in Hrun. rewrite Httl in Hrun. by apply Hrun. }
    pose proof (run_ok l sc sm0 sm0 config Hmeta Hsm) as Hrun.
    unfold resolver_store, calls_to_decode in Hrun. rewrite Httl in Hrun. by apply Hrun.
Qed.

(** Conversely, the premises of a rule of [NewWith_run] make [NewWith]
    run that way. *)
Lemma NewWith_run_complete (l : Lookuper) (t : list Call) (r : Result) :
  NewWith_run l t r -> NewWith l = (t, r).
Proof.
  intros Hrun.
  unfold NewWith, NewWith_body, NewWith_secrets, run, call, return_.
  unfold mbind, M_bind, mret, M_ret.
  destruct Hrun as [sc e Hmeta | sc sm0 e Hmeta Hsm | sc sm0 sm e Hmeta Hsm Httl Hwrap
    | sc sm0 sm config e Hmeta Hsm Hstore Hdec
    | sc sm0 sm config e Hmeta Hsm Hstore Hdec Hval
    | sc sm0 sm config Hmeta Hsm Hstore Hdec Hval];
    rewrite Hmeta; simpl; [done | ..]; rewrite Hsm; simpl; [done | ..].
  - apply Z.ltb_lt in Httl. rewrite Httl. simpl. by rewrite Hwrap.
  - unfold resolver_store, calls_to_decode in *.
    destruct (0 <? SecretCacheTTL sc); simpl.
    + rewrite Hstore. simpl. by rewrite Hdec.
    + subst sm. by rewrite Hdec.
  - unfold resolver_store, calls_to_decode in *.
    destruct (0 <? SecretCacheTTL sc); simpl.
    + rewrite Hstore. simpl. rewrite Hdec. simpl. by rewrite Hval.
    + subst sm. rewrite Hdec. simpl. by rewrite Hval.
  - unfold resolver_store, calls_to_decode in *.
    destruct (0 <? SecretCacheTTL sc); simpl.
    + rewrite Hstore. simpl. rewrite Hdec. simpl. by rewrite Hval.
    + subst sm. rewrite Hdec. simpl. by rewrite Hval.
Qed.

(** The calls of a run follow the order of the bootstrap, each stage at most
    once. *)
Lemma NewWith_run_stages (l : Lookuper) (t : list Call) (r : Result) :
  NewWith_run l t r -> StronglySorted lt (map stage t).
Proof.
  intros Hrun. destruct Hrun; unfold calls_to_decode;
    try destruct (0 <? SecretCacheTTL smConfig); simpl;
    repeat (constructor; simpl; try lia).
Qed.

(** C2.  [NewWith] returns a non-nil [Config] exactly when it returns a nil
    error.  Its calls follow the order of the bootstrap, each stage at most
    once (no stage is retried).  A failure of the secret configuration
    decode, of the secret manager construction or of the cache wrapping ends
    the run at that call with its error (wrapped with the stage's message)
    and no [Config]; a failure of the main decode or of the validation ends
    the run with that very error and no [Config]. *)
Theorem NewWith_config_iff_no_error (l : Lookuper) :
  (is_Some (NewWith l).2.1 <-> (NewWith l).2.2 = None)
  /\ StronglySorted lt (map stage (NewWith l).1)
  /\ (forall smConfig e,
        envconfig_ProcessWith_secrets secrets_Config_zero l [] = (smConfig, Some e) ->
        NewWith l
        = ([Call_ProcessWith_secrets],
           (None,
            Some (Errorf "unable to process secret configuration: %w" [ArgError e]))))
  /\ (forall smConfig sm0 e,
        envconfig_ProcessWith_secrets secrets_Config_zero l [] = (smConfig, None) ->
        secrets_SecretManagerFor (SecretManagerType smConfig) = (sm0, Some e) ->
        NewWith l
        = ([Call_ProcessWith_secrets; Call_SecretManagerFor (SecretManagerType smConfig)],
           (None, Some (Errorf "unable to connect to secret manager: %w" [ArgError e]))))
  /\ (forall smConfig sm0 sm e,
        envconfig_ProcessWith_secrets secrets_Config_zero l [] = (smConfig, None) ->
        secrets_SecretManagerFor (SecretManagerType smConfig) = (sm0, None) ->
        0 < SecretCacheTTL smConfig ->
        secrets_WrapCacher sm0 (SecretCacheTTL smConfig) = (sm, Some e) ->
        NewWith l
        = ([Call_ProcessWith_secrets; Call_SecretManagerFor (SecretManagerType smConfig);
            Call_WrapCacher sm0 (SecretCacheTTL smConfig)],
           (None,
            Some (Errorf "unable to create secret manager cache: %w" [ArgError e]))))
  /\ (forall smConfig sm0 sm config e,
        envconfig_ProcessWith_secrets secrets_Config_zero l [] = (smConfig, None) ->
        secrets_SecretManagerFor (SecretManagerType smConfig) = (sm0, None) ->
        resolver_store smConfig sm0 sm ->
        envconfig_ProcessWith_config (Config_zero database_Config_zero) l
          [secrets_Resolver sm smConfig] = (config, Some e) ->
        NewWith l = (calls_to_decode smConfig sm0 sm, (None, Some e)))
  /\ (forall smConfig sm0 sm config e,
        envconfig_ProcessWith_secrets secrets_Config_zero l [] = (smConfig, None) ->
        secrets_SecretManagerFor (SecretManagerType smConfig) = (sm0, None) ->
        resolver_store smConfig sm0 sm ->
        envconfig_ProcessWith_config (Config_zero database_Config_zero) l
          [secrets_Resolver sm smConfig] = (config, None) ->
        Validate (postprocess config) = Some e ->
        NewWith l
        = (calls_to_decode smConfig sm0 sm
             ++ [Call_postprocess; Call_Validate (postprocess config)],
           (None, Some e))).
Proof.
  split_and!.
  - destruct (NewWith_runs l); simpl; split; try done; by intros [? [=]].
  - eapply NewWith_run_stages, NewWith_runs.
  - intros. apply NewWith_run_complete. by eapply run_secrets_config_fails.
  - intros. apply NewWith_run_complete. by eapply run_secret_manager_fails.
  - intros. apply NewWith_run_complete. by eapply run_cache_fails.
  - intros. apply NewWith_run_complete. by eapply run_decode_fails.
  - intros. apply NewWith_run_complete. by eapply run_validate_fails.
Qed.

(** A run that got past the construction of the secret manager [sm0]
    either ends at a failing [WrapCacher] call, or makes the calls up to the
    main decode, with the resolver built on the store that [resolver_store]
    describes, and after them at most the fixup and the validation. *)
Lemma NewWith_run_calls (l : Lookuper) (smConfig : secrets_Config) (sm0 : SecretManager) :
  envconfig_ProcessWith_secrets secrets_Config_zero l [] = (smConfig, None) ->
  secrets_SecretManagerFor (SecretManagerType smConfig) = (sm0, None) ->
  (0 < SecretCacheTTL smConfig
   /\ (exists sm e, secrets_WrapCacher sm0 (SecretCacheTTL smConfig) = (sm, Some e))
   /\ (NewWith l).1
      = [Call_ProcessWith_secrets; Call_SecretManagerFor (SecretManagerType smConfig);
         Call_WrapCacher sm0 (SecretCacheTTL smConfig)])
  \/ (exists sm rest,
        resolver_store smConfig sm0 sm
        /\ (NewWith l).1 = calls_to_decode smConfig sm0 sm ++ rest
        /\ Forall (fun c => (5 <= stage c)%nat) rest).
Proof.
  intros Hmeta Hsm.
  pose proof (NewWith_runs l) as Hrun.
  destruct Hrun as [sc e Hmeta' | sc sm0' e Hmeta' Hsm' | sc sm0' sm e Hmeta' Hsm' Httl Hwrap
    | sc sm0' sm config e Hmeta' Hsm' Hstore Hdec
    | sc sm0' sm config e Hmeta' Hsm' Hstore Hdec Hval
    | sc sm0' sm config Hmeta' Hsm' Hstore Hdec Hval];
    rewrite Hmeta in Hmeta'; try discriminate;
    injection Hmeta' as <-; rewrite Hsm in Hsm'; try discriminate;
    injection Hsm' as <-.
  - left. eauto.
  - right. exists sm, []. rewrite app_nil_r. by split_and!.
  - right. exists sm, [Call_postprocess; Call_Validate (postprocess config)].
    split_and!; [done | done |]. repeat constructor.
  - right. exists sm, [Call_postprocess; Call_Validate (postprocess config)].
    split_and!; [done | done |]. repeat constructor.
Qed.

(** The mutators of the main decode: the resolver alone, built on the
    store that [resolver_store] describes. *)
Lemma NewWith_mutators (l : Lookuper) (ms : list MutatorFunc) :
  Call_ProcessWith_config ms ∈ (NewWith l).1 ->
  exists smConfig sm0 sm,
    envconfig_ProcessWith_secrets secrets_Config_zero l [] = (smConfig, None)
    /\ secrets_SecretManagerFor (SecretManagerType smConfig) = (sm0, None)
    /\ resolver_store smConfig sm0 sm
    /\ ms = [secrets_Resolver sm smConfig].
Proof.
  intros Hin. pose proof (NewWith_runs l) as Hrun.
  destruct (NewWith l) as [t r]. simpl in *.
  destruct Hrun as [sc e Hmeta | sc sm0 e Hmeta Hsm | sc sm0 sm e Hmeta Hsm Httl Hwrap
    | sc sm0 sm config e Hmeta Hsm Hstore Hdec
    | sc sm0 sm config e Hmeta Hsm Hstore Hdec Hval
    | sc sm0 sm config Hmeta Hsm Hstore Hdec Hval].
  1-3: by call_cases Hin.
  all: exists sc, sm0, sm; split_and!; try done.
  all: unfold calls_to_decode in Hin; destruct (0 <? _); call_cases Hin.
  all: by injection Hin as ->.
Qed.

(** C5.  Once the secret configuration is decoded and the secret manager
    [sm0] is constructed, [NewWith] calls [WrapCacher] exactly when the TTL is
    positive, and then on [sm0] with that TTL.  With a positive TTL the
    resolver is built on the manager that [WrapCacher] returns; with a TTL of
    zero or less no [WrapCacher] call is made and the resolver is built on
    [sm0] itself, the unwrapped store.  In both cases the main decode gets
    that resolver as its only mutator, and no other resolver is built. *)
Theorem NewWith_cache_iff_positive_ttl (l : Lookuper)
    (smConfig : secrets_Config) (sm0 : SecretManager) :
  envconfig_ProcessWith_secrets secrets_Config_zero l [] = (smConfig, None) ->
  secrets_SecretManagerFor (SecretManagerType smConfig) = (sm0, None) ->
  ((exists sm ttl, Call_WrapCacher sm ttl ∈ (NewWith l).1) <-> 0 < SecretCacheTTL smConfig)
  /\ (forall sm ttl, Call_WrapCacher sm ttl ∈ (NewWith l).1 ->
        sm = sm0 /\ ttl = SecretCacheTTL smConfig)
  /\ (0 < SecretCacheTTL smConfig ->
      forall sm, secrets_WrapCacher sm0 (SecretCacheTTL smConfig) = (sm, None) ->
        Call_Resolver sm smConfig ∈ (NewWith l).1
        /\ Call_ProcessWith_config [secrets_Resolver sm smConfig] ∈ (NewWith l).1)
  /\ (SecretCacheTTL smConfig <= 0 ->
        Call_Resolver sm0 smConfig ∈ (NewWith l).1
        /\ Call_ProcessWith_config [secrets_Resolver sm0 smConfig] ∈ (NewWith l).1
        /\ (forall sm sc, Call_Resolver sm sc ∈ (NewWith l).1 -> sm = sm0 /\ sc = smConfig)).
Proof.
  intros Hmeta Hsm.
  destruct (NewWith_run_calls l smConfig sm0 Hmeta Hsm)
    as [(Hpos & (sm & e & Hwrap) & ->) | (sm & rest & Hstore & -> & Hrest)].
  - split_and!.
    + split; [done |]. intros _. exists sm0, (SecretCacheTTL smConfig). call_made.
    + intros sm' ttl Hin. call_cases Hin. by injection Hin as -> ->.
    + intros _ sm' Hwrap'. congruence.
    + lia.
  - assert (Hlate : forall c, c ∈ rest -> (5 <= stage c)%nat).
    { by apply Forall_forall. }
    unfold resolver_store, calls_to_decode in *.
    destruct (Z.ltb_spec 0 (SecretCacheTTL smConfig)) as [Hpos|Hnpos].
    + split_and!.
      * split; [done |]. intros _. exists sm0, (SecretCacheTTL smConfig). call_made.
      * intros sm' ttl Hin. call_cases Hin.
        -- by injection Hin as -> ->.
        -- apply Hlate in Hin. simpl in Hin. lia.
      * intros _ sm' Hwrap'. assert (sm' = sm) as -> by congruence.
        split; call_made.
      * lia.
    + subst sm. split_and!.
      * split; [| lia]. intros (sm' & ttl & Hin). call_cases Hin.
        apply Hlate in Hin. simpl in Hin. lia.
      * intros sm' ttl Hin. call_cases Hin.
        apply Hlate in Hin. simpl in Hin. lia.
      * lia.
      * intros _. split_and!; [call_made | call_made |].
        intros sm' sc' Hin. call_cases Hin.
        -- by injection Hin as -> ->.
        -- apply Hlate in Hin. simpl in Hin. lia.
Qed.

End NewWith_facts.

Lemma NewWith_config_iff_no_error_witness :
  @NewWith Double.packages (MapLookuper Double.env_unknown_manager)
  = ([Call_ProcessWith_secrets; Call_SecretManagerFor "VAULT"],
     (None,
      Some (Errorf "unable to connect to secret manager: %w"
              [ArgError (Opaque "unknown secret manager type")]))).
Proof.
  apply (proj1 (proj2 (proj2 (proj2
    (@NewWith_config_iff_no_error Double.packages
       (MapLookuper Double.env_unknown_manager)))))
    {| Double.Type_ := "VAULT"; Double.CacheTTL := 5 * Minute |} Double.InMemory).
  - vm_compute. reflexivity.
  - vm_compute. reflexivity.
Defined.

Lemma NewWith_cache_iff_positive_ttl_witness :
  (Call_Resolver (H := Double.packages) Double.InMemory
     {| Double.Type_ := "IN_MEMORY"; Double.CacheTTL := 0 |}
   ∈ (@NewWith Double.packages (MapLookuper Double.env_no_cache)).1)
  /\ (Call_Resolver (H := Double.packages) (Double.Cached Double.InMemory (5 * Minute))
        {| Double.Type_ := "IN_MEMORY"; Double.CacheTTL := 5 * Minute |}
      ∈ (@NewWith Double.packages (MapLookuper Double.env_required_keys)).1).
Proof.
  split.
  - apply (proj2 (proj2 (proj2
      (@NewWith_cache_iff_positive_ttl Double.packages (MapLookuper Double.env_no_cache)
         {| Double.Type_ := "IN_MEMORY"; Double.CacheTTL := 0 |} Double.InMemory
         ltac:(vm_compute; reflexivity) ltac:(vm_compute; reflexivity))))).
    simpl. lia.
  - apply (proj1 (proj2 (proj2
      (@NewWith_cache_iff_positive_ttl Double.packages
         (MapLookuper Double.env_required_keys)
         {| Double.Type_ := "IN_MEMORY"; Double.CacheTTL := 5 * Minute |} Double.InMemory
         ltac:(vm_compute; reflexivity) ltac:(vm_compute; reflexivity))))).
    + vm_compute. reflexivity.
    + vm_compute. reflexivity.
Defined.

(** ** The struct decoder *)

Section decode_facts.

Context {S : Type}.
Implicit Types (l : Lookuper) (ms : list Mutator) (f g : Field S) (s : S).

Lemma decode_app l ms (fields1 fields2 : list (Field S)) s :
  decode l ms (fields1 ++ fields2) s
  = match decode l ms fields1 s with
    | (s', Some e) => (s', Some e)
    | (s', None) => decode l ms fields2 s'
    end.
Proof.
  revert s. induction fields1 as [|f fields1 IH]; intros s; simpl; [done |].
  destruct (decode_field l ms f s) as [s' [e|]]; [done | apply IH].
Qed.

(** An absent key of a required field without default stops the decoder
    with [MissingRequiredField] for that key. *)
Lemma decode_field_missing l ms f s :
  fs_required (f_spec f) = true -> fs_default (f_spec f) = None ->
  l (fs_key (f_spec f)) = None ->
  decode_field l ms f s = (s, Some (MissingRequiredField (fs_key (f_spec f)))).
Proof.
  intros Hreq Hdef Habs. unfold decode_field, lookup_raw.
  by rewrite Habs, Hdef, Hreq.
Qed.

Lemma decode_passes l ms (fields : list (Field S)) s :
  Forall (field_passes l ms) fields -> (decode l ms fields s).2 = None.
Proof.
  intros Hall. revert s. induction Hall as [|f fields Hf _ IH]; intros s; simpl; [done |].
  specialize (Hf s). destruct (decode_field l ms f s) as [s' [e|]]; [done | apply IH].
Qed.

(** A table with such a field never decodes without error. *)
Lemma decode_missing_fails l ms (pre post : list (Field S)) f s :
  fs_required (f_spec f) = true -> fs_default (f_spec f) = None ->
  l (fs_key (f_spec f)) = None ->
  is_Some (decode l ms (pre ++ f :: post) s).2.
Proof.
  intros Hreq Hdef Habs. rewrite decode_app.
  destruct (decode l ms pre s) as [s' [e|]]; simpl; [by eexists |].
  rewrite decode_field_missing by done. by eexists.
Qed.

(** When the fields before it pass, the error is the one of that field. *)
Lemma decode_missing_first l ms (pre post : list (Field S)) f s :
  Forall (field_passes l ms) pre ->
  fs_required (f_spec f) = true -> fs_default (f_spec f) = None ->
  l (fs_key (f_spec f)) = None ->
  (decode l ms (pre ++ f :: post) s).2 = Some (MissingRequiredField (fs_key (f_spec f))).
Proof.
  intros Hpre Hreq Hdef Habs. rewrite decode_app.
  pose proof (decode_passes l ms pre s Hpre) as Hok.
  destruct (decode l ms pre s) as [s' [e|]]; simpl in *; [done |].
  by rewrite decode_field_missing.
Qed.

(** The error of the decoder is the error of the first field, in
    declaration order, that does not get through its steps. *)
Lemma decode_field_error l ms f s :
  (decode_field l ms f s).2 = field_error l ms (f_spec f).
Proof.
  unfold decode_field, field_error.
  destruct (lookup_raw l (f_spec f)) as [e|[raw|]]; [done | | done].
  destruct (apply_mutators ms (f_spec f) raw) as [e|v]; [done |].
  by destruct (convert (fs_type (f_spec f)) v).
Qed.

Lemma decode_error l ms (fields : list (Field S)) s :
  (decode l ms fields s).2 = first_field_error l ms fields.
Proof.
  revert s. induction fields as [|f fields IH]; intros s; simpl; [done |].
  rewrite <- (decode_field_error l ms f s).
  destruct (decode_field l ms f s) as [s' [e|]]; simpl; [done | apply IH].
Qed.

Lemma first_field_error_app l ms (fields1 fields2 : list (Field S)) :
  first_field_error l ms (fields1 ++ fields2)
  = match first_field_error l ms fields1 with
    | Some e => Some e
    | None => first_field_error l ms fields2
    end.
Proof.
  induction fields1 as [|f fields1 IH]; simpl; [done |].
  by destruct (field_error l ms (f_spec f)).
Qed.

(** A table whose fields all get through has no first error. *)
Lemma first_field_error_passes l ms (fields : list (Field S)) :
  (forall f, f ∈ fields -> field_error l ms (f_spec f) = None) ->
  first_field_error l ms fields = None.
Proof.
  induction fields as [|f fields IH]; intros Hall; simpl; [done |].
  rewrite (Hall f) by apply list_elem_of_here.
  apply IH. intros g Hg. apply Hall. by apply list_elem_of_further.
Qed.

(** With an absent required key in the table, the first error is the one of
    an earlier field, or [MissingRequiredField] for that key. *)
Lemma first_field_error_missing l ms (pre post : list (Field S)) f :
  fs_required (f_spec f) = true -> fs_default (f_spec f) = None ->
  l (fs_key (f_spec f)) = None ->
  first_field_error l ms (pre ++ f :: post)
  = Some (default (MissingRequiredField (fs_key (f_spec f))) (first_field_error l ms pre)).
Proof.
  intros Hreq Hdef Habs. rewrite first_field_error_app.
  destruct (first_field_error l ms pre) as [e|]; simpl; [done |].
  unfold field_error, lookup_raw. by rewrite Habs, Hdef, Hreq.
Qed.

Lemma apply_mutators_unmatched ms (f : FieldSpec) (v : string) :
  unmatched ms f v -> apply_mutators ms f v = inr v.
Proof.
  intros Hall. induction Hall as [|m ms Hm _ IH]; simpl; [done |]. by rewrite Hm.
Qed.

(** An absent key with a default that no mutator matches: the field gets
    the default, converted to its type. *)
Lemma decode_field_default l ms f s s' (d : string) :
  l (fs_key (f_spec f)) = None ->
  fs_default (f_spec f) = Some d ->
  unmatched ms (f_spec f) d ->
  decode_field l ms f s = (s', None) ->
  exists x, convert (fs_type (f_spec f)) d = Some x /\ s' = f_set f x s.
Proof.
  intros Habs Hdef Hun. unfold decode_field, lookup_raw.
  rewrite Habs, Hdef, apply_mutators_unmatched by done.
  destruct (convert (fs_type (f_spec f)) d) as [x|]; [| discriminate].
  intros [= <-]. by exists x.
Qed.

(** Decoding fields that do not assign to what [f] reads leaves the value
    of [f] as it is. *)
Lemma decode_keeps l ms (fields : list (Field S)) f s :
  Forall (fun g => forall v s0, f_get f (f_set g v s0) = f_get f s0) fields ->
  f_get f (decode l ms fields s).1 = f_get f s.
Proof.
  intros Hall. revert s. induction Hall as [|g fields Hg _ IH]; intros s; simpl; [done |].
  assert (Hstep : f_get f (decode_field l ms g s).1 = f_get f s).
  { unfold decode_field. destruct (lookup_raw l (f_spec g)) as [e|[raw|]]; [done | | done].
    destruct (apply_mutators ms (f_spec g) raw) as [e|v]; [done |].
    destruct (convert (fs_type (f_spec g)) v); [apply Hg | done]. }
  destruct (decode_field l ms g s) as [s' [e|]]; simpl in *; [done |].
  by rewrite IH.
Qed.

Lemma ForallOrdPairs_split (R : Field S -> Field S -> Prop) (pre post : list (Field S)) f :
  ForallOrdPairs R (pre ++ f :: post) -> Forall (R f) post.
Proof.
  induction pre as [|g pre IH]; simpl; intros Hall.
  - by inversion Hall.
  - apply IH. by inversion Hall.
Qed.

(** The value a successful decode leaves in a field whose key is absent,
    whose default no mutator matches, and which no later field of the table
    assigns to. *)
Lemma decode_default l ms (pre post : list (Field S)) f s s' (d : string) :
  (forall x s0, f_get f (f_set f x s0) = x) ->
  Forall (fun g => forall v s0, f_get f (f_set g v s0) = f_get f s0) post ->
  l (fs_key (f_spec f)) = None ->
  fs_default (f_spec f) = Some d ->
  unmatched ms (f_spec f) d ->
  decode l ms (pre ++ f :: post) s = (s', None) ->
  convert (fs_type (f_spec f)) d = Some (f_get f s').
Proof.
  intros Hgs Hpost Habs Hdef Hun. rewrite decode_app.
  destruct (decode l ms pre s) as [s1 [e|]]; [discriminate |]. simpl.
  destruct (decode_field l ms f s1) as [s2 [e|]] eqn:Hf; [discriminate |].
  destruct (decode_field_default l ms f s1 s2 d Habs Hdef Hun Hf) as (x & Hx & ->).
  intros Hrest. pose proof (decode_keeps l ms post f (f_set f x s1) Hpost) as Hkeep.
  rewrite Hrest in Hkeep. simpl in Hkeep. by rewrite Hkeep, Hgs.
Qed.

End decode_facts.

(** The numbers that the conversions yield fit the Go types. *)
Lemma parse_int_int64 (s : string) (z : Z) : parse_int s = Some z -> int64_range z.
Proof.
  unfold parse_int, int64_range.
  destruct (match s with
            | String "-" s' => (true, s')
            | String "+" s' => (false, s')
            | _ => (false, s)
            end) as [neg body].
  destruct body; [discriminate |].
  destruct (parse_digits _ _) as [n|]; [| discriminate].
  destruct (_ && _) eqn:Hrange; [| discriminate].
  intros [= <-]. apply andb_true_iff in Hrange as [?%Z.leb_le ?%Z.ltb_lt]. lia.
Qed.

Lemma parse_duration_int64 (s : string) (d : Duration) :
  parse_duration s = Some d -> int64_range d.
Proof.
  unfold parse_duration, int64_range.
  destruct (match s with
            | String "-" s' => (true, s')
            | String "+" s' => (false, s')
            | _ => (false, s)
            end) as [neg body].
  destruct (String.eqb body "0"); [intros [= <-]; lia |].
  destruct (parse_duration_loop _ _ _ _) as [n|]; [| discriminate].
  destruct (_ && _) eqn:Hrange; [| discriminate].
  intros [= <-]. apply andb_true_iff in Hrange as [?%Z.leb_le ?%Z.ltb_lt]. lia.
Qed.

(** ** The table of [Config] *)

Section Config_fields_facts.

Context {D : Type}.

(** Reading a field of [Config] after assigning to it gives the value. *)
Lemma Config_own_fields_get_set :
  Forall (fun f : Field (Config D) => forall x s, f_get f (f_set f x s) = x)
    Config_own_fields.
Proof. repeat constructor; intros x []; reflexivity. Qed.

(** No field of [Config] assigns to what a field declared before it reads. *)
Lemma Config_own_fields_independent :
  ForallOrdPairs
    (fun f g : Field (Config D) => forall v s, f_get f (f_set g v s) = f_get f s)
    Config_own_fields.
Proof. repeat constructor; intros v []; reflexivity. Qed.

(** The fixup of [Firebase.DatabaseURL] changes none of them. *)
Lemma Config_own_fields_postprocess :
  Forall (fun f : Field (Config D) => forall s, f_get f (postprocess s) = f_get f s)
    Config_own_fields.
Proof. repeat constructor; intros [[] ?]; reflexivity. Qed.

(** Every declared default is a literal of the type of its field. *)
Lemma Config_own_fields_defaults :
  Forall (fun f : Field (Config D) =>
            forall d, fs_default (f_spec f) = Some d ->
                      is_Some (convert (fs_type (f_spec f)) d))
    Config_own_fields.
Proof. repeat constructor; intros d [= <-]; vm_compute; eauto. Qed.

(** The value a successful decode of [Config] leaves in a field that
    [Config] declares with a default, when its key is absent and no mutator
    matches the default. *)
Lemma decode_Config_default (D_fields : list (Field D)) (l : Lookuper) (ms : list Mutator)
    (s config : Config D) (f : Field (Config D)) (d : string) :
  decode l ms (Config_fields D_fields) s = (config, None) ->
  f ∈ Config_own_fields ->
  fs_default (f_spec f) = Some d ->
  l (fs_key (f_spec f)) = None ->
  unmatched ms (f_spec f) d ->
  convert (fs_type (f_spec f)) d = Some (f_get f config).
Proof.
  intros Hdec Hin Hdef Habs Hun.
  pose proof (proj1 (Forall_forall _ _) Config_own_fields_get_set f Hin) as Hgs.
  destruct (list_elem_of_split _ _ Hin) as (pre & post & Hsplit).
  pose proof Config_own_fields_independent as Hind.
  rewrite Hsplit in Hind. apply ForallOrdPairs_split in Hind.
  unfold Config_fields in Hdec. rewrite Hsplit, !app_assoc in Hdec.
  by eapply decode_default.
Qed.

(** No field that [Config] declares itself assigns to [Database]. *)
Lemma Config_own_fields_Database :
  Forall (fun f : Field (Config D) => forall v s, Database (f_set f v s) = Database s)
    Config_own_fields.
Proof. repeat constructor; intros v []; reflexivity. Qed.

(** The same for a field of the nested [Database], whatever the table of
    [database.Config] is, as long as reading a field of that table after
    assigning to it gives the value and the fields after it in the table do
    not assign to what it reads. *)
Lemma decode_Config_default_Database (D_fields pre post : list (Field D)) (g : Field D)
    (l : Lookuper) (ms : list Mutator) (s config : Config D) (d : string) :
  D_fields = pre ++ g :: post ->
  (forall x s0, f_get g (f_set g x s0) = x) ->
  Forall (fun h => forall v s0, f_get g (f_set h v s0) = f_get g s0) post ->
  decode l ms (Config_fields D_fields) s = (config, None) ->
  fs_default (f_spec g) = Some d ->
  l (fs_key (f_spec g)) = None ->
  unmatched ms (f_spec (nested "Database" Database set_Database g)) d ->
  convert (fs_type (f_spec g)) d = Some (f_get g (Database config)).
Proof.
  intros -> Hgs Hpost Hdec Hdef Habs Hun.
  assert (Heq : Config_fields (pre ++ g :: post)
                = (map (nested "Firebase" Firebase set_Firebase) FirebaseConfig_fields
                     ++ map (nested "Database" Database set_Database) pre)
                  ++ nested "Database" Database set_Database g
                  :: (map (nested "Database" Database set_Database) post
                        ++ Config_own_fields)).
  { unfold Config_fields. rewrite map_app. simpl. by rewrite <- !app_assoc. }
  rewrite Heq in Hdec.
  refine (decode_default l ms _ _ (nested "Database" Database set_Database g) s config d
            _ _ Habs Hdef Hun Hdec).
  - intros x []. simpl. apply Hgs.
  - apply Forall_app. split.
    + apply Forall_forall. intros h' Hh'.
      apply list_elem_of_fmap in Hh' as (h & -> & Hh).
      pose proof (proj1 (Forall_forall _ _) Hpost h Hh) as Hind.
      intros v []. simpl. apply Hind.
    + eapply Forall_impl; [exact Config_own_fields_Database |].
      simpl. intros h Hh v s0. by rewrite Hh.
Qed.

End Config_fields_facts.

(** ** The bootstrap over the struct decoder *)

Section Bootstrap_over_decoder.

Variable D : Type.
Variable D_zero : D.
Variable D_fields : list (Field D).
Variable SC : Type.
Variable SC_zero : SC.
Variable SC_fields : list (Field SC).
Variable SC_type : SC -> string.
Variable SC_ttl : SC -> Duration.
Variable SM : Type.
Variable SM_for : string -> SM * option error.
Variable SM_wrap : SM -> Duration -> SM * option error.
Variable SM_resolver : SM -> SC -> Mutator.

Local Abbreviation P :=
  (spec_Packages D D_zero D_fields SC SC_zero SC_fields SC_type SC_ttl SM SM_for SM_wrap
     SM_resolver).

(** A successful run decoded the main configuration without error through
    one resolver, and returns the decoded structure after the fixup. *)
Lemma NewWith_decoded (l : Lookuper) (cfg : Config D) :
  (@NewWith P l).2 = (Some cfg, None) ->
  exists (sm : SM) (sc : SC) (config : Config D),
    Call_ProcessWith_config (H := P) [SM_resolver sm sc] ∈ (@NewWith P l).1
    /\ decode l [SM_resolver sm sc] (Config_fields D_fields) (Config_zero D_zero)
       = (config, None)
    /\ cfg = postprocess config.
Proof.
  intros Hres. pose proof (NewWith_runs (H := P) l) as Hrun.
  destruct (@NewWith P l) as [t r]. simpl in *. subst r.
  inversion Hrun as [| | | | | sc sm0 sm config Hmeta Hsm Hstore Hdec Hval Ht Hr]; subst.
  exists sm, sc, config. split_and!; [| exact Hdec | done].
  unfold calls_to_decode. destruct (0 <? _); call_made.
Qed.

(** The value of a field of [Config] with a default, after a successful
    run in which its key is absent and no mutator matches the default. *)
Lemma NewWith_default (l : Lookuper) (cfg : Config D) (f : Field (Config D)) (d : string) :
  (@NewWith P l).2 = (Some cfg, None) ->
  f ∈ Config_own_fields ->
  fs_default (f_spec f) = Some d ->
  l (fs_key (f_spec f)) = None ->
  (forall ms, Call_ProcessWith_config (H := P) ms ∈ (@NewWith P l).1 ->
              unmatched ms (f_spec f) d) ->
  convert (fs_type (f_spec f)) d = Some (f_get f cfg).
Proof.
  intros Hres Hin Hdef Habs Hun.
  destruct (NewWith_decoded l cfg Hres) as (sm & sc & config & Hcall & Hdec & ->).
  specialize (Hun _ Hcall).
  pose proof (proj1 (Forall_forall _ _) (Config_own_fields_postprocess (D := D)) f Hin)
    as Hpost.
  rewrite Hpost. by eapply decode_Config_default.
Qed.

(** C4.  Over the struct decoder: whenever the main decode succeeds, every
    field that [Config] declares with a default, and whose environment key
    is absent from the lookuper, holds its declared default converted to the
    type of the field, provided no mutator matches the default (each passes
    it through unchanged); every declared default does convert.  The same
    holds of the [Config] that a successful [NewWith] returns, the mutators
    being those of its main decode.  A field of the nested [Database] with
    a default behaves the same, whatever the table of [database.Config] is,
    as long as the fields of that table read and assign independently.  In
    particular [Port] is 8080, [CodeDuration] one hour,
    [SessionCookieDuration] 24 hours and [CodeDigits] 8. *)
Theorem NewWith_default_when_absent (l : Lookuper) :
  (forall (ms : list Mutator) (s config : Config D) (f : Field (Config D)) (d : string),
      decode l ms (Config_fields D_fields) s = (config, None) ->
      f ∈ Config_own_fields ->
      fs_default (f_spec f) = Some d ->
      l (fs_key (f_spec f)) = None ->
      unmatched ms (f_spec f) d ->
      is_Some (convert (fs_type (f_spec f)) d)
      /\ convert (fs_type (f_spec f)) d = Some (f_get f config))
  /\ (forall (cfg : Config D) (f : Field (Config D)) (d : string),
        (@NewWith P l).2 = (Some cfg, None) ->
        f ∈ Config_own_fields ->
        fs_default (f_spec f) = Some d ->
        l (fs_key (f_spec f)) = None ->
        (forall ms, Call_ProcessWith_config (H := P) ms ∈ (@NewWith P l).1 ->
                    unmatched ms (f_spec f) d) ->
        convert (fs_type (f_spec f)) d = Some (f_get f cfg))
  /\ (forall (ms : list Mutator) (s config : Config D) (pre post : list (Field D))
             (g : Field D) (d : string),
        D_fields = pre ++ g :: post ->
        (forall x s0, f_get g (f_set g x s0) = x) ->
        Forall (fun h => forall v s0, f_get g (f_set h v s0) = f_get g s0) post ->
        decode l ms (Config_fields D_fields) s = (config, None) ->
        fs_default (f_spec g) = Some d ->
        l (fs_key (f_spec g)) = None ->
        unmatched ms (f_spec (nested "Database" Database set_Database g)) d ->
        convert (fs_type (f_spec g)) d = Some (f_get g (Database config)))
  /\ (forall cfg : Config D,
        (@NewWith P l).2 = (Some cfg, None) ->
        (forall ms f, Call_ProcessWith_config (H := P) ms ∈ (@NewWith P l).1 ->
                      unmatched ms f "8080" /\ unmatched ms f "1h"
                      /\ unmatched ms f "24h" /\ unmatched ms f "8") ->
        (l "PORT" = None -> Port cfg = 8080)
        /\ (l "CODE_DURATION" = None -> CodeDuration cfg = Hour)
        /\ (l "SESSION_DURATION" = None -> SessionCookieDuration cfg = 24 * Hour)
        /\ (l "CODE_DIGITS" = None -> CodeDigits cfg = 8%N)).
Proof.
  split_and!.
  - intros ms s config f d Hdec Hin Hdef Habs Hun. split.
    + pose proof (proj1 (Forall_forall _ _) (Config_own_fields_defaults (D := D)) f Hin)
        as Hconv.
      by apply Hconv.
    + by eapply decode_Config_default.
  - intros cfg f d. apply NewWith_default.
  - intros ms s config pre post g d. apply decode_Config_default_Database.
  - intros cfg Hres Hun. split_and!; intros Habs.
    + assert (Hin : env_default "Port" "PORT" "8080" TInt Port set_Port
                    ∈ Config_own_fields (D := D)).
      { unfold Config_own_fields. call_made. }
      pose proof (NewWith_default l cfg _ "8080" Hres Hin eq_refl Habs
                    (fun ms Hms => (proj1 (Hun ms _ Hms)))) as Hf.
      change (parse_int "8080" = Some (Port cfg)) in Hf.
      assert (Hc : parse_int "8080" = Some 8080) by (vm_compute; reflexivity).
      rewrite Hc in Hf. by injection Hf as <-.
    + assert (Hin : env_default "CodeDuration" "CODE_DURATION" "1h" TDuration CodeDuration
                      set_CodeDuration ∈ Config_own_fields (D := D)).
      { unfold Config_own_fields. call_made. }
      pose proof (NewWith_default l cfg _ "1h" Hres Hin eq_refl Habs
                    (fun ms Hms => (proj1 (proj2 (Hun ms _ Hms))))) as Hf.
      change (parse_duration "1h" = Some (CodeDuration cfg)) in Hf.
      assert (Hc : parse_duration "1h" = Some Hour) by (vm_compute; reflexivity).
      rewrite Hc in Hf. by injection Hf as <-.
    + assert (Hin : env_default "SessionCookieDuration" "SESSION_DURATION" "24h" TDuration
                      SessionCookieDuration set_SessionCookieDuration
                    ∈ Config_own_fields (D := D)).
      { unfold Config_own_fields. call_made. }
      pose proof (NewWith_default l cfg _ "24h" Hres Hin eq_refl Habs
                    (fun ms Hms => (proj1 (proj2 (proj2 (Hun ms _ Hms)))))) as Hf.
      change (parse_duration "24h" = Some (SessionCookieDuration cfg)) in Hf.
      assert (Hc : parse_duration "24h" = Some (24 * Hour)) by (vm_compute; reflexivity).
      rewrite Hc in Hf. by injection Hf as <-.
    + assert (Hin : env_default "CodeDigits" "CODE_DIGITS" "8" TUint CodeDigits
                      set_CodeDigits ∈ Config_own_fields (D := D)).
      { unfold Config_own_fields. call_made. }
      pose proof (NewWith_default l cfg _ "8" Hres Hin eq_refl Habs
                    (fun ms Hms => (proj2 (proj2 (proj2 (Hun ms _ Hms)))))) as Hf.
      change (parse_uint "8" = Some (CodeDigits cfg)) in Hf.
      assert (Hc : parse_uint "8" = Some 8%N) by (vm_compute; reflexivity).
      rewrite Hc in Hf. by injection Hf as <-.
Qed.

(** C3, amended.  When the key of a required field of [Config] is absent
    from the lookuper, [NewWith] over the struct decoder fails: it returns no
    [Config] and an error, and it calls neither the fixup nor [Validate].
    The error is the one of the first stage that fails.  When the secret
    configuration decode, the secret manager construction or the cache
    wrapping fails, it is the error of that stage wrapped with the message
    of the stage.  When these succeed, it is the error of the main decode:
    the error of the first field declared before the required one that does
    not get through the decoder (lookup, mutators, conversion), and
    [MissingRequiredField] for the key when all of them get through. *)
Theorem NewWith_missing_required_key (l : Lookuper)
    (pre post : list (Field (Config D))) (f : Field (Config D)) :
  Config_fields D_fields = pre ++ f :: post ->
  fs_required (f_spec f) = true ->
  fs_default (f_spec f) = None ->
  l (fs_key (f_spec f)) = None ->
  (@NewWith P l).2.1 = None
  /\ is_Some (@NewWith P l).2.2
  /\ (Call_postprocess (H := P) ∉ (@NewWith P l).1)
  /\ (forall c, Call_Validate (H := P) c ∉ (@NewWith P l).1)
  /\ (forall (sc : SC) (e0 : error),
        decode l [] SC_fields SC_zero = (sc, Some e0) ->
        (@NewWith P l).2
        = (None, Some (Errorf "unable to process secret configuration: %w" [ArgError e0])))
  /\ (forall (sc : SC) (sm0 : SM) (e0 : error),
        decode l [] SC_fields SC_zero = (sc, None) ->
        SM_for (SC_type sc) = (sm0, Some e0) ->
        (@NewWith P l).2
        = (None, Some (Errorf "unable to connect to secret manager: %w" [ArgError e0])))
  /\ (forall (sc : SC) (sm0 sm : SM) (e0 : error),
        decode l [] SC_fields SC_zero = (sc, None) ->
        SM_for (SC_type sc) = (sm0, None) ->
        0 < SC_ttl sc ->
        SM_wrap sm0 (SC_ttl sc) = (sm, Some e0) ->
        (@NewWith P l).2
        = (None, Some (Errorf "unable to create secret manager cache: %w" [ArgError e0])))
  /\ (forall (sc : SC) (sm0 sm : SM),
        decode l [] SC_fields SC_zero = (sc, None) ->
        SM_for (SC_type sc) = (sm0, None) ->
        resolver_store (H := P) sc sm0 sm ->
        (@NewWith P l).2
        = (None,
           Some (default (MissingRequiredField (fs_key (f_spec f)))
                   (first_field_error l [SM_resolver sm sc] pre)))
        /\ (Forall (field_passes l [SM_resolver sm sc]) pre ->
            (@NewWith P l).2 = (None, Some (MissingRequiredField (fs_key (f_spec f)))))).
Proof.
  intros Hsplit Hreq Hdef Habs.
  assert (Hfails : forall ms s, is_Some (decode l ms (Config_fields D_fields) s).2).
  { intros ms s. rewrite Hsplit. by apply decode_missing_fails. }
  assert (Hearly : (@NewWith P l).2.1 = None /\ is_Some (@NewWith P l).2.2
                   /\ forall c, c ∈ (@NewWith P l).1 -> (stage c < 5)%nat).
  { pose proof (NewWith_runs (H := P) l) as Hrun.
    destruct (@NewWith P l) as [t r]. simpl in *.
    destruct Hrun as [sc e Hmeta | sc sm0 e Hmeta Hsm | sc sm0 sm e Hmeta Hsm Httl Hwrap
      | sc sm0 sm config e Hmeta Hsm Hstore Hdec
      | sc sm0 sm config e Hmeta Hsm Hstore Hdec Hval
      | sc sm0 sm config Hmeta Hsm Hstore Hdec Hval]; simpl.
    - split_and!; [done | by eexists |]. intros c Hc. call_cases Hc; subst c; simpl; lia.
    - split_and!; [done | by eexists |]. intros c Hc. call_cases Hc; subst c; simpl; lia.
    - split_and!; [done | by eexists |]. intros c Hc. call_cases Hc; subst c; simpl; lia.
    - split_and!; [done | by eexists |]. intros c Hc. unfold calls_to_decode in Hc.
      destruct (0 <? _); call_cases Hc; subst c; simpl; lia.
    - specialize (Hfails [SM_resolver sm sc] (Config_zero D_zero)).
      simpl in Hdec. rewrite Hdec in Hfails. by destruct Hfails.
    - specialize (Hfails [SM_resolver sm sc] (Config_zero D_zero)).
      simpl in Hdec. rewrite Hdec in Hfails. by destruct Hfails. }
  destruct Hearly as (Hnil & Herr & Hstage).
  assert (Hmain : forall (sc : SC) (sm0 sm : SM),
            decode l [] SC_fields SC_zero = (sc, None) ->
            SM_for (SC_type sc) = (sm0, None) ->
            resolver_store (H := P) sc sm0 sm ->
            (@NewWith P l).2
            = (None, first_field_error l [SM_resolver sm sc] (Config_fields D_fields))).
  { intros sc sm0 sm Hmeta Hsm Hstore.
    pose proof (decode_error l [SM_resolver sm sc] (Config_fields D_fields)
                  (Config_zero D_zero)) as Herror.
    pose proof (Hfails [SM_resolver sm sc] (Config_zero D_zero)) as [e He].
    destruct (decode l [SM_resolver sm sc] (Config_fields D_fields) (Config_zero D_zero))
      as [config e'] eqn:Hdec.
    cbn [snd] in Herror, He. rewrite <- Herror, He. rewrite He in Hdec.
    by rewrite (NewWith_run_complete (H := P) l _ _
                  (run_decode_fails (H := P) l sc sm0 sm config _ Hmeta Hsm Hstore Hdec)). }
  split_and!; [done | done | | | | | |].
  - intros Hc. apply Hstage in Hc. simpl in Hc. lia.
  - intros c Hc. apply Hstage in Hc. simpl in Hc. lia.
  - intros sc e0 Hmeta.
    by rewrite (NewWith_run_complete (H := P) l _ _
                  (run_secrets_config_fails (H := P) l sc e0 Hmeta)).
  - intros sc sm0 e0 Hmeta Hsm.
    by rewrite (NewWith_run_complete (H := P) l _ _
                  (run_secret_manager_fails (H := P) l sc sm0 e0 Hmeta Hsm)).
  - intros sc sm0 sm e0 Hmeta Hsm Httl Hwrap.
    by rewrite (NewWith_run_complete (H := P) l _ _
                  (run_cache_fails (H := P) l sc sm0 sm e0 Hmeta Hsm Httl Hwrap)).
  - intros sc sm0 sm Hmeta Hsm Hstore.
    rewrite (Hmain sc sm0 sm Hmeta Hsm Hstore), Hsplit.
    rewrite first_field_error_missing by done.
    split; [done |]. intros Hpre.
    rewrite first_field_error_passes; [done |].
    intros g Hg. rewrite <- (decode_field_error l _ g (Config_zero D_zero)).
    by apply (proj1 (Forall_forall _ _) Hpre).
Qed.

End Bootstrap_over_decoder.

(** C3, as the claim states it, fails.  [TOKEN_SIGNING_KEY] is one of the
    required keys, declared after [CSRF_AUTH_KEY] and after the port.  In
    each of three environments it is absent and the error does not name it.
    With the secret manager spelled out and [CSRF_AUTH_KEY] absent as well,
    the error names [CSRF_AUTH_KEY].  With the secret manager spelled out
    and a port that is not a number, the error is the conversion error of
    the port.  With a secret manager type that is not known, the error is
    the one of the secret manager construction. *)
Lemma NewWith_names_first_missing_key :
  required_keys (Config_fields (D := unit) [])
  = ["FIREBASE_API_KEY"; "FIREBASE_AUTH_DOMAIN"; "FIREBASE_DATABASE_URL";
     "FIREBASE_PROJECT_ID"; "FIREBASE_STORAGE_BUCKET"; "FIREBASE_MESSAGE_SENDER_ID";
     "FIREBASE_APP_ID"; "FIREBASE_MEASUREMENT_ID"; "CSRF_AUTH_KEY"; "TOKEN_SIGNING_KEY";
     "CERTIFICATE_SIGNING_KEY"]
  /\ MapLookuper Double.env_no_token_no_csrf "SECRET_MANAGER" = Some "IN_MEMORY"
  /\ MapLookuper Double.env_no_token_no_csrf "TOKEN_SIGNING_KEY" = None
  /\ (@NewWith Double.packages (MapLookuper Double.env_no_token_no_csrf)).2
     = (None, Some (MissingRequiredField "CSRF_AUTH_KEY"))
  /\ MapLookuper Double.env_no_token_bad_port "SECRET_MANAGER" = Some "IN_MEMORY"
  /\ MapLookuper Double.env_no_token_bad_port "TOKEN_SIGNING_KEY" = None
  /\ (@NewWith Double.packages (MapLookuper Double.env_no_token_bad_port)).2
     = (None, Some (TypeConversionError "PORT" TInt "abc"))
  /\ MapLookuper (delete "TOKEN_SIGNING_KEY" Double.env_unknown_manager) "TOKEN_SIGNING_KEY"
     = None
  /\ (@NewWith Double.packages
        (MapLookuper (delete "TOKEN_SIGNING_KEY" Double.env_unknown_manager))).2
     = (None,
        Some (Errorf "unable to connect to secret manager: %w"
                [ArgError (Opaque "unknown secret manager type")])).
Proof. split_and!; vm_compute; reflexivity. Qed.

Lemma NewWith_missing_required_key_witness :
  (@NewWith Double.packages (MapLookuper Double.env_no_token)).2
  = (None, Some (MissingRequiredField "TOKEN_SIGNING_KEY")).
Proof.
  assert (Habs : MapLookuper Double.env_no_token "TOKEN_SIGNING_KEY" = None).
  { vm_compute. reflexivity. }
  destruct (NewWith_missing_required_key unit tt [] Double.secrets_Config
       {| Double.Type_ := ""; Double.CacheTTL := 0 |} Double.secrets_fields
       Double.Type_ Double.CacheTTL Double.SecretManager Double.SecretManagerFor
       Double.WrapCacher Double.Resolver
       (MapLookuper Double.env_no_token)
       (take 20 (Config_fields []))
       (drop 21 (Config_fields []))
       (env_required "TokenSigningKey" "TOKEN_SIGNING_KEY" TString
          TokenSigningKey set_TokenSigningKey)
       eq_refl eq_refl eq_refl Habs) as (_ & _ & _ & _ & _ & _ & _ & Hmain).
  apply (Hmain {| Double.Type_ := "IN_MEMORY"; Double.CacheTTL := 5 * Minute |}
           Double.InMemory (Double.Cached Double.InMemory (5 * Minute))).
  - vm_compute. reflexivity.
  - vm_compute. reflexivity.
  - vm_compute. reflexivity.
  - cbv [take Config_fields FirebaseConfig_fields Config_own_fields map app].
    repeat (apply Forall_cons_2; [intros s; vm_compute; reflexivity |]).
    apply Forall_nil_2.
Defined.

Lemma NewWith_default_when_absent_witness :
  Port Double_config = 8080
  /\ CodeDuration Double_config = Hour
  /\ SessionCookieDuration Double_config = 24 * Hour
  /\ CodeDigits Double_config = 8%N.
Proof.
  pose proof (NewWith_default_when_absent unit tt [] Double.secrets_Config
       {| Double.Type_ := ""; Double.CacheTTL := 0 |} Double.secrets_fields
       Double.Type_ Double.CacheTTL Double.SecretManager Double.SecretManagerFor
       Double.WrapCacher Double.Resolver
       (MapLookuper Double.env_required_keys)) as (_ & _ & _ & Hex).
  specialize (Hex Double_config ltac:(vm_compute; reflexivity)).
  destruct Hex as (Hport & Hcode & Hsession & Hdigits).
  { intros ms f Hin.
    apply (NewWith_mutators (H := Double.packages)) in Hin
      as (sc & sm0 & sm & _ & _ & _ & ->).
    split_and!; by apply Forall_cons_2; [| apply Forall_nil_2]. }
  split_and!.
  - apply Hport. vm_compute. reflexivity.
  - apply Hcode. vm_compute. reflexivity.
  - apply Hsession. vm_compute. reflexivity.
  - apply Hdigits. vm_compute. reflexivity.
Defined.

(* ================================================================== *)
(** * Part III: further properties of the code *)
(* ================================================================== *)

(** ** [Validate] *)

(** X1.  [Validate] passes exactly the configurations whose ten checked
    durations are all zero or positive: zero is accepted, although the
    message of [checkPositiveDuration] asks for a positive duration. *)
Theorem Validate_passes_iff {D : Type} (c : Config D) :
  Validate c = None
  <-> 0 <= SessionCookieDuration c
      /\ 0 <= RevokeCheckPeriod c
      /\ 0 <= CodeDuration c
      /\ 0 <= AllowedTestAge c
      /\ 0 <= APIKeyCacheDuration c
      /\ 0 <= VerificationCodeMaxAge c
      /\ 0 <= PublicKeyCacheDuration c
      /\ 0 <= CleanupPeriod c
      /\ 0 <= DisabledUserMaxAge c
      /\ 0 <= VerificationTokenMaxAge c.
Proof.
  unfold Validate. rewrite Validate_loop_ok. unfold Validate_fields. split.
  - intros Hall.
    repeat match type of Hall with
           | Forall _ (_ :: _) =>
               let Hhead := fresh "Hhead" in
               apply Forall_cons in Hall as [Hhead Hall]; simpl in Hhead
           end.
    by split_and!.
  - intros (? & ? & ? & ? & ? & ? & ? & ? & ? & ?).
    repeat (apply Forall_cons_2; [simpl; assumption |]). apply Forall_nil_2.
Qed.

(** X2.  The result of [Validate], error included, depends on the ten
    checked durations only: it reads neither [CertificateDuration] nor
    [VerificationTokenDuration], nor any field that is not a duration. *)
Theorem Validate_reads_checked_durations {D1 D2 : Type} (a : Config D1) (b : Config D2) :
  same_checked_durations a b -> Validate a = Validate b.
Proof.
  intros (H1 & H2 & H3 & H4 & H5 & H6 & H7 & H8 & H9 & H10).
  unfold Validate, Validate_fields.
  by rewrite H1, H2, H3, H4, H5, H6, H7, H8, H9, H10.
Qed.

Lemma Validate_reads_checked_durations_witness :
  Validate (set_CertificateDuration (- Hour) (set_CSRFAuthKey "" (set_Port (-1) Double_config)))
  = Validate Double_config.
Proof.
  apply (Validate_reads_checked_durations
           (set_CertificateDuration (- Hour) (set_CSRFAuthKey "" (set_Port (-1) Double_config)))
           Double_config).
  unfold same_checked_durations. split_and!; vm_compute; reflexivity.
Defined.

(** X3.  An error of [Validate] names one of ten names of its table, and
    never [VERIFICATION_CODE_MAX_AGE]: the entry of that name reads the field
    that the entry named [VERIFICATION_TOKEN_DURATION] has already checked. *)
Theorem Validate_error_names {D : Type} (c : Config D) (e : error) :
  Validate c = Some e ->
  exists name,
    error_name e = Some name
    /\ name <> "VERIFICATION_CODE_MAX_AGE"
    /\ name ∈ ["SESSION_DUATION"; "REVOKE_CHECK_DURATION"; "CODE_DURATION";
               "ALLOWED_PAST_TEST_DAYS"; "API_KEY_CACHE_DURATION";
               "VERIFICATION_TOKEN_DURATION"; "PUBLIC_KEY_CACHE_DURATION";
               "CLEANUP_PERIOD"; "DISABLED_USER_MAX_AGE"; "VERIFICATION_TOKEN_MAX_AGE"].
Proof.
  unfold Validate, Validate_fields, Validate_loop, checkPositiveDuration. simpl.
  repeat match goal with
         | |- context [if ?d <? 0 then _ else _] =>
             destruct (d <? 0);
             [intros [= <-]; eexists; split_and!;
              [reflexivity | discriminate | call_made] |]
         end.
  discriminate.
Qed.

Lemma Validate_error_names_witness :
  exists name,
    error_name (violation {| Var := -1; Name := "VERIFICATION_TOKEN_DURATION" |}) = Some name
    /\ name <> "VERIFICATION_CODE_MAX_AGE"
    /\ name ∈ ["SESSION_DUATION"; "REVOKE_CHECK_DURATION"; "CODE_DURATION";
               "ALLOWED_PAST_TEST_DAYS"; "API_KEY_CACHE_DURATION";
               "VERIFICATION_TOKEN_DURATION"; "PUBLIC_KEY_CACHE_DURATION";
               "CLEANUP_PERIOD"; "DISABLED_USER_MAX_AGE"; "VERIFICATION_TOKEN_MAX_AGE"].
Proof.
  apply (Validate_error_names (set_VerificationCodeMaxAge (-1) Double_config)).
  vm_compute. reflexivity.
Defined.

(** ** [NewWith] *)

(** The durations of a configuration that passes [Validate]. *)
Lemma Validate_ok_durations {D : Type} (c : Config D) :
  Validate c = None ->
  0 <= SessionCookieDuration c /\ 0 <= RevokeCheckPeriod c /\ 0 <= CodeDuration c
  /\ 0 <= AllowedTestAge c /\ 0 <= APIKeyCacheDuration c
  /\ 0 <= VerificationCodeMaxAge c /\ 0 <= PublicKeyCacheDuration c
  /\ 0 <= CleanupPeriod c /\ 0 <= DisabledUserMaxAge c
  /\ 0 <= VerificationTokenMaxAge c.
Proof.
  unfold Validate. rewrite Validate_loop_ok. unfold Validate_fields. intros Hall.
  repeat match type of Hall with
         | Forall _ (_ :: _) =>
             let Hhead := fresh "Hhead" in
             apply Forall_cons in Hall as [Hhead Hall]; simpl in Hhead
         end.
  by split_and!.
Qed.

Section NewWith_more.

Context `{Packages}.

(** The run behind a returned [Config]. *)
Lemma NewWith_ok_run (l : Lookuper) (cfg : Config database_Config) :
  (NewWith l).2 = (Some cfg, None) ->
  exists smConfig sm0 sm config,
    envconfig_ProcessWith_secrets secrets_Config_zero l [] = (smConfig, None)
    /\ secrets_SecretManagerFor (SecretManagerType smConfig) = (sm0, None)
    /\ resolver_store smConfig sm0 sm
    /\ envconfig_ProcessWith_config (Config_zero database_Config_zero) l
         [secrets_Resolver sm smConfig] = (config, None)
    /\ Validate (postprocess config) = None
    /\ cfg = postprocess config
    /\ (NewWith l).1
       = calls_to_decode smConfig sm0 sm
           ++ [Call_postprocess; Call_Validate (postprocess config)].
Proof.
  intros Hres. pose proof (NewWith_runs l) as Hrun.
  destruct (NewWith l) as [t r]. simpl in *. subst r.
  inversion Hrun as [| | | | | sc sm0 sm config Hmeta Hsm Hstore Hdec Hval Ht Hr]; subst.
  exists sc, sm0, sm, config. by split_and!.
Qed.

(** X4.  A [Config] that [NewWith] returns has passed [Validate]: the last
    call of the run is [Validate] on that very structure, it returned no
    error, and so the ten checked durations of the returned [Config] are
    zero or positive. *)
Theorem NewWith_returns_validated (l : Lookuper) (cfg : Config database_Config) :
  (NewWith l).2 = (Some cfg, None) ->
  Validate cfg = None
  /\ last (NewWith l).1 = Some (Call_Validate cfg)
  /\ (0 <= SessionCookieDuration cfg /\ 0 <= RevokeCheckPeriod cfg
      /\ 0 <= CodeDuration cfg /\ 0 <= AllowedTestAge cfg
      /\ 0 <= APIKeyCacheDuration cfg /\ 0 <= VerificationCodeMaxAge cfg
      /\ 0 <= PublicKeyCacheDuration cfg /\ 0 <= CleanupPeriod cfg
      /\ 0 <= DisabledUserMaxAge cfg /\ 0 <= VerificationTokenMaxAge cfg).
Proof.
  intros Hres.
  destruct (NewWith_ok_run l cfg Hres)
    as (sc & sm0 & sm & config & _ & _ & _ & _ & Hval & -> & ->).
  split; [done |]. split; [| by apply Validate_ok_durations].
  unfold calls_to_decode. rewrite !last_app. reflexivity.
Qed.

(** X5.  A [Config] that [NewWith] returns is the structure that the main
    decode filled without error, with the resolver of the secret manager as
    its only mutator, changed in [Firebase.DatabaseURL] alone, which holds
    the decoded value after [strings.ReplaceAll]. *)
Theorem NewWith_returns_decoded (l : Lookuper) (cfg : Config database_Config) :
  (NewWith l).2 = (Some cfg, None) ->
  exists smConfig sm0 sm config,
    envconfig_ProcessWith_secrets secrets_Config_zero l [] = (smConfig, None)
    /\ secrets_SecretManagerFor (SecretManagerType smConfig) = (sm0, None)
    /\ resolver_store smConfig sm0 sm
    /\ envconfig_ProcessWith_config (Config_zero database_Config_zero) l
         [secrets_Resolver sm smConfig] = (config, None)
    /\ Config_same_but_DatabaseURL config cfg
    /\ DatabaseURL (Firebase cfg) = ReplaceAll (DatabaseURL (Firebase config)) "https://" "".
Proof.
  intros Hres.
  destruct (NewWith_ok_run l cfg Hres)
    as (sc & sm0 & sm & config & Hmeta & Hsm & Hstore & Hdec & _ & -> & _).
  exists sc, sm0, sm, config. split_and!; try done.
  - apply postprocess_frame.
  - by destruct config as [[] ?].
Qed.

(** X6.  [NewWith] calls [Validate] exactly when the main decode returned no
    error, and then on the decoded structure after the fixup: never on a
    structure that a failed decode left partially populated. *)
Theorem Validate_called_iff_decoded (l : Lookuper) (c : Config database_Config) :
  Call_Validate c ∈ (NewWith l).1
  <-> exists smConfig sm0 sm config,
        envconfig_ProcessWith_secrets secrets_Config_zero l [] = (smConfig, None)
        /\ secrets_SecretManagerFor (SecretManagerType smConfig) = (sm0, None)
        /\ resolver_store smConfig sm0 sm
        /\ envconfig_ProcessWith_config (Config_zero database_Config_zero) l
             [secrets_Resolver sm smConfig] = (config, None)
        /\ c = postprocess config.
Proof.
  split.
  - intros Hin. pose proof (NewWith_runs l) as Hrun.
    destruct (NewWith l) as [t r]. simpl in *.
    destruct Hrun as [sc e Hmeta | sc sm0 e Hmeta Hsm | sc sm0 sm e Hmeta Hsm Httl Hwrap
      | sc sm0 sm config e Hmeta Hsm Hstore Hdec
      | sc sm0 sm config e Hmeta Hsm Hstore Hdec Hval
      | sc sm0 sm config Hmeta Hsm Hstore Hdec Hval].
    1-3: by call_cases Hin.
    + unfold calls_to_decode in Hin. by destruct (0 <? _); call_cases Hin.
    + exists sc, sm0, sm, config. split_and!; try done.
      unfold calls_to_decode in Hin. destruct (0 <? _); call_cases Hin.
      all: by injection Hin as ->.
    + exists sc, sm0, sm, config. split_and!; try done.
      unfold calls_to_decode in Hin. destruct (0 <? _); call_cases Hin.
      all: by injection Hin as ->.
  - intros (sc & sm0 & sm & config & Hmeta & Hsm & Hstore & Hdec & ->).
    destruct (Validate (postprocess config)) as [e|] eqn:Hval.
    + rewrite (NewWith_run_complete l _ _
                 (run_validate_fails l sc sm0 sm config e Hmeta Hsm Hstore Hdec Hval)).
      cbn [fst]. apply elem_of_app. right. call_made.
    + rewrite (NewWith_run_complete l _ _
                 (run_ok l sc sm0 sm config Hmeta Hsm Hstore Hdec Hval)).
      cbn [fst]. apply elem_of_app. right. call_made.
Qed.

(** X7.  The firebase SDK config of a [Config] that [NewWith] returns has
    the project ID and the storage bucket as the main decode of that run
    left them (the decode run with the resolver that the run built on its
    secret store), and the database URL after [strings.ReplaceAll]. *)
Theorem FirebaseConfig_of_returned (l : Lookuper) (cfg : Config database_Config) :
  (NewWith l).2 = (Some cfg, None) ->
  exists smConfig sm0 sm config,
    envconfig_ProcessWith_secrets secrets_Config_zero l [] = (smConfig, None)
    /\ secrets_SecretManagerFor (SecretManagerType smConfig) = (sm0, None)
    /\ resolver_store smConfig sm0 sm
    /\ Call_ProcessWith_config [secrets_Resolver sm smConfig] ∈ (NewWith l).1
    /\ envconfig_ProcessWith_config (Config_zero database_Config_zero) l
         [secrets_Resolver sm smConfig] = (config, None)
    /\ Config_FirebaseConfig cfg
       = {| firebase_DatabaseURL :=
              ReplaceAll (DatabaseURL (Firebase config)) "https://" "";
            firebase_ProjectID := ProjectID (Firebase config);
            firebase_StorageBucket := StorageBucket (Firebase config) |}.
Proof.
  intros Hres.
  destruct (NewWith_ok_run l cfg Hres)
    as (sc & sm0 & sm & config & Hmeta & Hsm & Hstore & Hdec & _ & -> & Hcalls).
  exists sc, sm0, sm, config. split_and!; try done.
  - rewrite Hcalls. unfold calls_to_decode. destruct (0 <? _); call_made.
  - by destruct config as [[] ?].
Qed.

(** X12.  Every error of [NewWith] comes with a nil [Config] and from one
    of five places: the secret configuration decode, the secret manager
    construction or the cache wrapping of this run, each wrapped with the
    message of its stage; or, after these have succeeded, the main decode of
    this run (with the resolver built on the store of the run) or the
    validation of the structure that decode filled, returned as it is, the
    latter being the error for the first negative duration in the table of
    the decoded structure. *)
Theorem NewWith_error_provenance (l : Lookuper) (e : error) :
  (NewWith l).2.2 = Some e ->
  (NewWith l).2.1 = None /\ NewWith_error_source l e.
Proof.
  intros He. pose proof (NewWith_runs l) as Hrun.
  destruct (NewWith l) as [t r]. simpl in *. unfold NewWith_error_source.
  destruct Hrun as [sc e0 Hmeta | sc sm0 e0 Hmeta Hsm | sc sm0 sm e0 Hmeta Hsm Httl Hwrap
    | sc sm0 sm config e0 Hmeta Hsm Hstore Hdec
    | sc sm0 sm config e0 Hmeta Hsm Hstore Hdec Hval
    | sc sm0 sm config Hmeta Hsm Hstore Hdec Hval]; simpl in *;
    try discriminate; injection He as <-; (split; [reflexivity |]).
  - left. eauto.
  - right. left. eauto 10.
  - right. right. left. eauto 10.
  - right. right. right. left. exists sc, sm0, sm, config. by split_and!.
  - right. right. right. right.
    apply Validate_loop_error in Hval as (pre & f & post & Hsplit & Hpre & Hneg & ->).
    exists sc, sm0, sm, config, pre, f, post. by split_and!.
Qed.

End NewWith_more.

Lemma NewWith_returns_validated_witness :
  Validate Double_config = None.
Proof.
  apply (@NewWith_returns_validated Double.packages
           (MapLookuper Double.env_required_keys) Double_config).
  vm_compute. reflexivity.
Defined.

Lemma NewWith_returns_decoded_witness :
  exists config : Config unit,
    Config_same_but_DatabaseURL config Double_config
    /\ DatabaseURL (Firebase Double_config)
       = ReplaceAll (DatabaseURL (Firebase config)) "https://" "".
Proof.
  destruct (@NewWith_returns_decoded Double.packages
              (MapLookuper Double.env_required_keys) Double_config)
    as (sc & sm0 & sm & config & _ & _ & _ & _ & Hsame & Hurl).
  - vm_compute. reflexivity.
  - exists config. by split.
Defined.

Lemma FirebaseConfig_of_returned_witness :
  exists config : Config unit,
    envconfig_ProcessWith_config (Packages := Double.packages) (Config_zero tt)
      (MapLookuper Double.env_required_keys)
      [Double.Resolver (Double.Cached Double.InMemory (5 * Minute))
         {| Double.Type_ := "IN_MEMORY"; Double.CacheTTL := 5 * Minute |}]
    = (config, None)
    /\ Config_FirebaseConfig Double_config
       = {| firebase_DatabaseURL := ReplaceAll (DatabaseURL (Firebase config)) "https://" "";
            firebase_ProjectID := ProjectID (Firebase config);
            firebase_StorageBucket := StorageBucket (Firebase config) |}.
Proof.
  destruct (@FirebaseConfig_of_returned Double.packages
              (MapLookuper Double.env_required_keys) Double_config)
    as (sc & sm0 & sm & config & Hmeta & Hsm & Hstore & _ & Hdec & Hfb).
  - vm_compute. reflexivity.
  - exists config. split; [| exact Hfb].
    vm_compute in Hmeta. injection Hmeta as <-.
    vm_compute in Hsm. injection Hsm as <-.
    vm_compute in Hstore. injection Hstore as <-.
    exact Hdec.
Defined.

Lemma NewWith_error_provenance_witness :
  NewWith_error_source (H := Double.packages) (MapLookuper Double.env_unknown_manager)
    (Errorf "unable to connect to secret manager: %w"
       [ArgError (Opaque "unknown secret manager type")]).
Proof.
  apply (@NewWith_error_provenance Double.packages
           (MapLookuper Double.env_unknown_manager)).
  vm_compute. reflexivity.
Defined.

(** ** [GetUser] *)

(** X8.  [GetUser] reads the ["user"] entry of the request context and no
    other: storing or removing a value under another key changes neither the
    user nor the error it returns, and it makes the same flash call, with
    the same message, on the request at hand. *)
Theorem GetUser_other_keys {User World : Type}
    (flash_Error : Request User -> string -> World -> World)
    (w : World) (data : gmap string (value User)) (key : string) (v : value User) :
  key <> "user" ->
  (GetUser flash_Error w {| context_data := Some (<[key := v]> data) |}).2
  = (GetUser flash_Error w {| context_data := Some data |}).2
  /\ (GetUser flash_Error w {| context_data := Some (delete key data) |}).2
     = (GetUser flash_Error w {| context_data := Some data |}).2
  /\ (GetUser flash_Error w {| context_data := Some (<[key := v]> data) |}).1
     = (GetUser (fun _ => flash_Error {| context_data := Some (<[key := v]> data) |}) w
          {| context_data := Some data |}).1
  /\ (GetUser flash_Error w {| context_data := Some (delete key data) |}).1
     = (GetUser (fun _ => flash_Error {| context_data := Some (delete key data) |}) w
          {| context_data := Some data |}).1.
Proof.
  intros Hkey. unfold GetUser, context_GetOk. simpl.
  rewrite lookup_insert_ne, lookup_delete_ne by done.
  destruct (data !! "user") as [[|p|t]|]; simpl; by split_and!.
Qed.

Lemma GetUser_other_keys_witness :
  (GetUser (User := nat) (fun _ msg w => msg :: w) []
     {| context_data := Some (<["session" := OtherValue "string"]>
                                {[ "user" := UserPtr (Some 7%nat) ]}) |}).2
  = (GetUser (User := nat) (fun _ msg w => msg :: w) []
       {| context_data := Some {[ "user" := UserPtr (Some 7%nat) ]} |}).2.
Proof.
  apply (GetUser_other_keys (User := nat) (fun _ msg w => msg :: w) []
           {[ "user" := UserPtr (Some 7%nat) ]} "session" (OtherValue "string")).
  discriminate.
Defined.

(** X9.  What is stored under ["user"] decides the outcome, whatever else
    the request context holds: a stored user comes back as it is, without
    error and without flash message; a stored value of another type gives
    "internal error"; after the entry is removed, or when the registry holds
    nothing for the request, the outcome is "unauthorized". *)
Theorem GetUser_after_store {User World : Type}
    (flash_Error : Request User -> string -> World -> World)
    (w : World) (data : gmap string (value User)) :
  (forall p,
      GetUser flash_Error w {| context_data := Some (<["user" := UserPtr p]> data) |}
      = (w, (p, None)))
  /\ (forall t,
        GetUser flash_Error w {| context_data := Some (<["user" := OtherValue t]> data) |}
        = (flash_Error {| context_data := Some (<["user" := OtherValue t]> data) |}
             "internal error - you have been logged out." w,
           (None, Some (Errorf "internal error" []))))
  /\ GetUser flash_Error w {| context_data := Some (<["user" := NilInterface]> data) |}
     = (flash_Error {| context_data := Some (<["user" := NilInterface]> data) |}
          "internal error - you have been logged out." w,
        (None, Some (Errorf "internal error" [])))
  /\ GetUser flash_Error w {| context_data := Some (delete "user" data) |}
     = (flash_Error {| context_data := Some (delete "user" data) |} "Unauthorized" w,
        (None, Some (Errorf "unauthorized" [])))
  /\ GetUser (User := User) flash_Error w {| context_data := None |}
     = (flash_Error {| context_data := None |} "Unauthorized" w,
        (None, Some (Errorf "unauthorized" []))).
Proof.
  unfold GetUser, context_GetOk. simpl.
  split_and!; intros; by rewrite ?lookup_insert_eq, ?lookup_delete_eq.
Qed.

(** X10.  [GetUser] has three outcomes and no other: a user with a nil
    error and the flash messages untouched; or no user, the error
    "unauthorized" and the one flash message "Unauthorized"; or no user, the
    error "internal error" and the one flash message that goes with it.  So a
    flash message is added exactly when an error is returned. *)
Theorem GetUser_outcomes {User World : Type} (flash_Error : Request User -> string -> World -> World)
    (w : World) (r : Request User) :
  (exists p, context_GetOk r "user" = (UserPtr p, true)
             /\ GetUser flash_Error w r = (w, (p, None)))
  \/ ((context_GetOk r "user").2 = false
      /\ GetUser flash_Error w r
         = (flash_Error r "Unauthorized" w, (None, Some (Errorf "unauthorized" []))))
  \/ ((context_GetOk r "user").2 = true
      /\ (forall p, (context_GetOk r "user").1 <> UserPtr p)
      /\ GetUser flash_Error w r
         = (flash_Error r "internal error - you have been logged out." w,
            (None, Some (Errorf "internal error" [])))).
Proof.
  unfold GetUser.
  destruct (context_GetOk r "user") as [[|p|t] [|]]; simpl.
  - right. right. by split_and!.
  - right. left. by split.
  - left. by exists p.
  - right. left. by split.
  - right. right. by split_and!.
  - right. left. by split.
Qed.

(** ** The fixup of [Firebase.DatabaseURL] *)

Lemma string_length_app (a b : string) :
  String.length (a +:+ b) = (String.length a + String.length b)%nat.
Proof.
  induction a as [|c a IH]; [by destruct b |].
  change (String c a +:+ b) with (String c (a +:+ b)). simpl. by rewrite IH.
Qed.

Lemma HasPrefix_length (s prefix : string) :
  HasPrefix s prefix = true -> (String.length prefix <= String.length s)%nat.
Proof.
  revert s. induction prefix as [|p prefix IH]; intros [|c s]; simpl; try lia; try done.
  destruct (Ascii.eqb p c); [| done]. intros Hp. apply IH in Hp. lia.
Qed.

(** An occurrence lies within the string. *)
Lemma Index_bound (s substr : string) (i : nat) :
  Index s substr = Some i -> (i + String.length substr <= String.length s)%nat.
Proof.
  revert i. induction s as [|c s IH]; intros i; rewrite Index_unfold.
  - destruct (HasPrefix "" substr) eqn:Hp; [| done].
    intros [= <-]. by apply HasPrefix_length in Hp.
  - destruct (HasPrefix (String c s) substr) eqn:Hp.
    + intros [= <-]. by apply HasPrefix_length in Hp.
    + destruct (Index s substr) as [j|]; [| done].
      intros [= <-]. specialize (IH j eq_refl). simpl. lia.
Qed.

Lemma string_take_drop_length (i k : nat) (s : string) :
  (i + k <= String.length s)%nat ->
  (String.length (string_take i s) + k + String.length (string_drop (i + k) s)
   = String.length s)%nat.
Proof.
  revert s. induction i as [|i IH]; intros s Hs; simpl.
  - revert s Hs. induction k as [|k IHk]; intros [|c s] Hs; simpl in *; try lia.
    specialize (IHk s). lia.
  - destruct s as [|c s]; simpl in *; [lia |]. specialize (IH s). lia.
Qed.

(** Removing occurrences never makes a string longer, and removing at least
    one makes it shorter. *)
Lemma Replace_loop_remove_length (n : nat) (s old : string) :
  (String.length (Replace_loop n s old "") <= String.length s)%nat.
Proof.
  revert s. induction n as [|n IH]; intros s; simpl; [done |].
  destruct (Index s old) as [j|] eqn:Hj; [| done].
  pose proof (Index_bound _ _ _ Hj) as Hb.
  pose proof (string_take_drop_length j (String.length old) s Hb) as Hlen.
  specialize (IH (string_drop (j + String.length old) s)).
  rewrite string_length_app.
  change ("" +:+ ?x) with x. lia.
Qed.

Lemma ReplaceAll_remove_length (s old : string) :
  (String.length (ReplaceAll s old "") <= String.length s)%nat
  /\ (old <> "" -> Contains s old = true ->
      (String.length (ReplaceAll s old "") < String.length s)%nat).
Proof.
  unfold ReplaceAll, Contains. case_decide as Hold; [split; [done | by subst] |].
  destruct old as [|c old'] eqn:Heq; [done |]. rewrite <- Heq in *.
  split.
  - destruct (Count s old =? 0)%nat; [done | apply Replace_loop_remove_length].
  - intros _. destruct (Index s old) as [j|] eqn:Hj; [| done]. intros _.
    assert (Hs : exists n, String.length s = S n).
    { destruct s; [| by eexists]. rewrite Heq in Hj. discriminate. }
    destruct Hs as [n Hs]. unfold Count. rewrite Hs. cbn [Count_loop]. rewrite Hj.
    cbn [Nat.eqb Replace_loop]. rewrite Hj.
    pose proof (Index_bound _ _ _ Hj) as Hb.
    pose proof (string_take_drop_length j (String.length old) s Hb) as Hlen.
    pose proof (Replace_loop_remove_length
                  (Count_loop n (string_drop (j + String.length old) s) old)
                  (string_drop (j + String.length old) s) old) as Hrest.
    rewrite string_length_app. change ("" +:+ ?x) with x.
    assert (0 < String.length old)%nat by (rewrite Heq; simpl; lia).
    lia.
Qed.

(** X11.  The fixup changes the configuration exactly when
    [Firebase.DatabaseURL] contains ["https://"], and it never makes the
    URL longer: a URL without that scheme, such as one that starts with
    ["http://"], is kept as it is. *)
Theorem postprocess_changes_iff {D : Type} (c : Config D) :
  (postprocess c = c <-> Contains (DatabaseURL (Firebase c)) "https://" = false)
  /\ (String.length (DatabaseURL (Firebase (postprocess c)))
      <= String.length (DatabaseURL (Firebase c)))%nat.
Proof.
  assert (Hurl : DatabaseURL (Firebase (postprocess c))
                 = ReplaceAll (DatabaseURL (Firebase c)) "https://" "").
  { by destruct c as [[] ?]. }
  pose proof (ReplaceAll_remove_length (DatabaseURL (Firebase c)) "https://") as [Hle Hlt].
  split; [| by rewrite Hurl]. split.
  - intros Hsame. rewrite Hsame in Hurl.
    destruct (Contains (DatabaseURL (Firebase c)) "https://") eqn:Hc; [| done].
    specialize (Hlt ltac:(discriminate) eq_refl). rewrite <- Hurl in Hlt. lia.
  - intros Hfree. pose proof (ReplaceAll_absent _ _ "" Hfree) as Hid.
    destruct c as [[] ?]. unfold postprocess. simpl in *. by rewrite Hid.
Qed.
